(** * Filmlog: a shallow embedding of [app.py] and its specification

    The Flask application keeps a roll table, a settings table, an image
    directory and a data directory.  Every request handler is embedded as a
    function from the application state and the request to a response and a
    new state.

    Conventions of the embedding.
    - A Python [str] is a [string]; each [ascii] is one code point in
      [0..255] (the Latin-1 range of Unicode), so that [str.isdigit],
      [str.lower] and [int] are the Python functions restricted to that
      range.
    - A Python [int] is a [Z].  [int] refuses a literal of more than 4300
      digits.  The roll table is a finite map from the primary key to the
      row; SQLite holds an INTEGER in 64 bits, and a key or an [iso] outside
      that range raises [OverflowError] when it is bound to a statement.
    - Library calls whose result depends on the clock, image decoding and
      encoding, file-name sanitising or the zip container are fields of the
      environment record [Env].
    - [rolls] and [settings] are the tables as the session reads them;
      [data_files] is the data directory as [backup] and [import_backup]
      read and write it, file by file.  The statements below speak of the
      one or of the other; none relates a table to the bytes of the
      database file that holds it.
    - A file name is written by [open]: the name [.] is the directory
      itself, and a name of more than 255 bytes is refused. *)

From Stdlib Require Import ZArith Lia List Ascii String DecimalString.
From Stdlib Require DecimalPos DecimalN.
From stdpp Require Import base option list gmap strings sorting fin_maps.

Open Scope string_scope.
Open Scope Z_scope.

(** ** Python strings *)

Module Py.

Definition code (c : ascii) : N := N_of_ascii c.

Definition between (lo hi : N) (c : ascii) : bool :=
  ((lo <=? code c) && (code c <=? hi))%N.

(** ['0'..'9']: the decimal digits of the range. *)
Definition is_ascii_digit (c : ascii) : bool := between 48 57 c.

(** [str.isdigit] on one character: the decimal digits and the superscript
    digits U+00B2, U+00B3 and U+00B9. *)
Definition isdigit_char (c : ascii) : bool :=
  is_ascii_digit c
  || (code c =? 178)%N || (code c =? 179)%N || (code c =? 185)%N.

Fixpoint all_chars (p : ascii → bool) (s : string) : bool :=
  match s with
  | EmptyString => true
  | String c r => p c && all_chars p r
  end.

(** Truth value of a [str]: non-empty. *)
Definition truthy (s : string) : bool :=
  match s with EmptyString => false | String _ _ => true end.

(** [s.isdigit()]: at least one character, all of them digits. *)
Definition isdigit (s : string) : bool := truthy s && all_chars isdigit_char s.

(** The blanks [int] skips at both ends of its argument: the six blanks of
    C's [isspace] (tab to carriage return, and the space) and, above U+007F,
    the blanks U+0085 and U+00A0, which CPython replaces by a space before
    it parses.  The separators U+001C to U+001F are blanks for
    [str.isspace] but not here: [int] refuses them. *)
Definition is_int_space (c : ascii) : bool :=
  between 9 13 c || (code c =? 32)%N || (code c =? 133)%N || (code c =? 160)%N.

Fixpoint lstrip (s : string) : string :=
  match s with
  | String c r => if is_int_space c then lstrip r else s
  | EmptyString => EmptyString
  end.

Fixpoint rstrip (s : string) : string :=
  match s with
  | EmptyString => EmptyString
  | String c r =>
      match rstrip r with
      | EmptyString => if is_int_space c then EmptyString else String c EmptyString
      | r' => String c r'
      end
  end.

Definition strip (s : string) : string := rstrip (lstrip s).

Definition digit_val (c : ascii) : option Z :=
  if is_ascii_digit c then Some (Z.of_N (code c) - 48) else None.

(** The digits of a base-10 literal; one underscore may stand between two
    digits.  [after_us] holds at the start and after an underscore, where a
    digit has to follow. *)
Fixpoint digits_loop (after_us : bool) (acc : Z) (s : string) : option Z :=
  match s with
  | EmptyString => if after_us then None else Some acc
  | String c r =>
      match digit_val c with
      | Some d => digits_loop false (10 * acc + d) r
      | None =>
          if Ascii.eqb c "_" && negb after_us
          then digits_loop true acc r
          else None
      end
  end.

(** [sys.int_info.default_max_str_digits]: [int] raises [ValueError] on a
    literal of more digits. *)
Definition max_str_digits : nat := 4300.

Fixpoint count_digits (s : string) : nat :=
  match s with
  | EmptyString => O
  | String c r => ((if is_ascii_digit c then 1 else 0) + count_digits r)%nat
  end.

(** The literal after the sign. *)
Definition literal (s : string) : option Z :=
  if (count_digits s <=? max_str_digits)%nat then digits_loop true 0 s else None.

(** [int(s)] for a [str]: [None] stands for [ValueError]. *)
Definition int (s : string) : option Z :=
  match strip s with
  | String c r =>
      if Ascii.eqb c "-" then Z.opp <$> literal r
      else if Ascii.eqb c "+" then literal r
      else literal (String c r)
  | EmptyString => None
  end.

(** [c.lower()] for the Latin-1 range. *)
Definition lower_char (c : ascii) : ascii :=
  if between 65 90 c || (between 192 222 c && negb (code c =? 215)%N)
  then ascii_of_N (code c + 32)
  else c.

Fixpoint lower (s : string) : string :=
  match s with
  | EmptyString => EmptyString
  | String c r => String (lower_char c) (lower r)
  end.

(** [s.startswith(p)]. *)
Fixpoint startswith (p s : string) : bool :=
  match p, s with
  | EmptyString, _ => true
  | String a p', String b s' => Ascii.eqb a b && startswith p' s'
  | String _ _, EmptyString => false
  end.

(** [needle in s]. *)
Fixpoint contains (needle s : string) : bool :=
  startswith needle s
  || match s with
     | EmptyString => false
     | String _ r => contains needle r
     end.

(** [s.endswith(p)]. *)
Definition endswith (p s : string) : bool :=
  startswith (String.rev p) (String.rev s).

(** The text after the last character satisfying [sep], or [None] when no
    character does. *)
Fixpoint after_last (sep : ascii → bool) (s : string) : option string :=
  match s with
  | EmptyString => None
  | String c r =>
      match after_last sep r with
      | Some t => Some t
      | None => if sep c then Some r else None
      end
  end.

(** [f"{n:04d}"]: the sign, then the decimal digits padded with zeros to a
    total width of four. *)
Definition decimal (n : N) : string := NilZero.string_of_uint (N.to_uint n).

Fixpoint zeros (k : nat) : string :=
  match k with O => EmptyString | S k' => String "0" (zeros k') end.

Definition zfill (width : nat) (digits : string) : string :=
  (zeros (width - String.length digits) ++ digits)%string.

Definition format_04d (n : Z) : string :=
  if (n <? 0)%Z then String "-" (zfill 3 (decimal (Z.abs_N n)))
  else zfill 4 (decimal (Z.abs_N n)).

(** The number of bytes of [s.encode('utf-8')]. *)
Fixpoint utf8_length (s : string) : Z :=
  match s with
  | EmptyString => 0
  | String c r => (if (code c <? 128)%N then 1 else 2) + utf8_length r
  end.

End Py.

(** ** Dates: [datetime.strptime(s, '%Y-%m-%d').date()] *)

Record Date := mkDate { year : Z; month : Z; day : Z }.

Module Strptime.

Definition digit := Py.digit_val.

Definition is_dash (c : ascii) : bool := Ascii.eqb c "-".

(** One digit in [1..9]. *)
Definition digit_1_9 (a : ascii) : option Z :=
  match digit a with
  | Some x => if 1 <=? x then Some x else None
  | None => None
  end.

(** [1[0-2]] or [0[1-9]]. *)
Definition month_two (a b : ascii) : option Z :=
  match digit a, digit b with
  | Some x, Some y =>
      if (x =? 1) && (y <=? 2) then Some (10 + y)
      else if (x =? 0) && (1 <=? y) then Some y
      else None
  | _, _ => None
  end.

(** [%m]: the alternatives [1[0-2]], [0[1-9]] and [[1-9]], each followed by
    the literal [-] of the format.  Returns the month and the rest. *)
Definition month_field (s : string) : option (Z * string) :=
  match s with
  | String a (String b r) =>
      if is_dash b then (λ m, (m, r)) <$> digit_1_9 a
      else
        match r with
        | String c r' => if is_dash c then (λ m, (m, r')) <$> month_two a b else None
        | EmptyString => None
        end
  | _ => None
  end.

(** [3[0-1]], [[1-2]\d], [0[1-9]], or a space before [[1-9]]. *)
Definition day_two (a b : ascii) : option Z :=
  match digit a, digit b with
  | Some x, Some y =>
      if (x =? 3) && (y <=? 1) then Some (30 + y)
      else if (x =? 1) || (x =? 2) then Some (10 * x + y)
      else if (x =? 0) && (1 <=? y) then Some y
      else None
  | None, Some y => if Ascii.eqb a " " && (1 <=? y) then Some y else None
  | _, None => None
  end.

(** [%d]: the alternatives [3[0-1]], [[1-2]\d], [0[1-9]], [[1-9]] and a
    space before [[1-9]]; the match has to reach the end of the string
    (unconverted data raises [ValueError]). *)
Definition day_field (s : string) : option Z :=
  match s with
  | String a EmptyString => digit_1_9 a
  | String a (String b EmptyString) => day_two a b
  | _ => None
  end.

Definition is_leap (y : Z) : bool :=
  (y mod 4 =? 0) && (negb (y mod 100 =? 0) || (y mod 400 =? 0)).

Definition days_in_month (y m : Z) : Z :=
  if m =? 2 then (if is_leap y then 29 else 28)
  else if (m =? 4) || (m =? 6) || (m =? 9) || (m =? 11) then 30
  else 31.

(** [date(y, m, d)] raises [ValueError] outside the calendar. *)
Definition valid_date (y m d : Z) : bool :=
  (1 <=? y) && (y <=? 9999) && (1 <=? m) && (m <=? 12)
  && (1 <=? d) && (d <=? days_in_month y m).

(** [%Y]: four digits. *)
Definition year_field (s : string) : option (Z * string) :=
  match s with
  | String a (String b (String c (String d r))) =>
      match digit a, digit b, digit c, digit d with
      | Some y3, Some y2, Some y1, Some y0 =>
          Some (1000 * y3 + 100 * y2 + 10 * y1 + y0, r)
      | _, _, _, _ => None
      end
  | _ => None
  end.

Definition expect_dash (s : string) : option string :=
  match s with
  | String c r => if is_dash c then Some r else None
  | EmptyString => None
  end.

(** The whole format; [None] stands for [ValueError]. *)
Definition strptime_ymd (s : string) : option Date :=
  '(y, r1) ← year_field s;
  r2 ← expect_dash r1;
  '(m, r3) ← month_field r2;
  d ← day_field r3;
  if valid_date y m d then Some (mkDate y m d) else None.

End Strptime.

(** ** Data model *)

(** A row of the [Roll] table without its primary key [id], which is the key
    of the table.  Nullable columns are options. *)
Record Roll := mkRoll {
  film_type : string;
  iso : option Z;
  camera : option string;
  lens : option string;
  date_started : option Date;
  date_finished : option Date;
  date_added : Z;
  contact_sheet : option string;
  notes : option string
}.

(** The persistent state: the [Roll] table, the [AppSetting] table as a map
    from the unique [key] to the nullable [value], the files of [IMAGES_DIR]
    and the files of [DATA_DIR], both by file name. *)
Record State := mkState {
  rolls : gmap Z Roll;
  settings : gmap string (option string);
  images : gmap string string;
  data_files : gmap string string
}.

Definition set_rolls (t : gmap Z Roll) (st : State) : State :=
  mkState t (settings st) (images st) (data_files st).

Definition set_settings (t : gmap string (option string)) (st : State) : State :=
  mkState (rolls st) t (images st) (data_files st).

Definition set_images (t : gmap string string) (st : State) : State :=
  mkState (rolls st) (settings st) t (data_files st).

Definition set_data_files (t : gmap string string) (st : State) : State :=
  mkState (rolls st) (settings st) (images st) t.

(** ** Requests, responses, exceptions *)

Inductive Method := GET | POST.

(** werkzeug's [FileStorage]: it is truthy when its file name is not empty. *)
Record FileStorage := mkFile { filename : string; stream : string }.

Record Request := mkRequest {
  method : Method;
  args : gmap string string;
  form : gmap string string;
  files : gmap string FileStorage
}.

Inductive Exn :=
  | ValueError
  | TypeError
  | KeyError
  | BadRequestKeyError
  | IntegrityError
  | OverflowError
  | OperationalError
  | OSError
  | UnidentifiedImageError
  | BadZipFile.

Inductive Result (A : Type) :=
  | Ok (a : A)
  | Raise (e : Exn).
Arguments Ok {A} a.
Arguments Raise {A} e.

#[global] Instance result_ret : MRet Result := λ A a, Ok a.
#[global] Instance result_bind : MBind Result := λ A B f m,
  match m with Ok a => f a | Raise e => Raise e end.

(** What the platform and the libraries supply to a request. *)
Inductive Platform := Posix | Windows.

Record Env := mkEnv {
  (** the text of [datetime.now().timestamp()] *)
  now_timestamp : string;
  (** [datetime.utcnow()], the default of [date_added] *)
  utcnow : Z;
  (** werkzeug's [secure_filename] *)
  secure_filename : string → string;
  (** Pillow, given the name of the file to write and the upload: decode,
      convert, shrink and encode again in the format of the name; the
      exception when Pillow cannot read the upload or cannot write the
      file *)
  optimized_image : string → string → Result string;
  (** [zipfile.ZipFile]: the entries of an archive in the order of
      [namelist()], each with the content [read] gives for it; [None] when
      it is no zip.  The entries of a zip are taken to be readable (not
      encrypted, right checksum), and their names are as the module gives
      them, cut at a NUL. *)
  zip_entries : string → option (list (string * string));
  platform : Platform
}.

(** The text of an error shown in a form. *)
Inductive ErrorMsg :=
  | RollExists (formatted_id : string)
  | DatabaseError.

(** A label as [generate_labels] draws it: the cell of the grid, the text
    and the digits of the barcode.  The view places the drawing at
    floating-point coordinates it computes from the cell. *)
Record Label := mkLabel {
  col : Z;
  row : Z;
  text : string;
  barcode : string
}.

Inductive Response :=
  | Redirect (endpoint : string)
  | RedirectRoll (roll_id : Z)
  | RedirectRestart
  | RenderIndex (results : list (Z * Roll)) (search_query : string)
  | RenderAddRoll (error : option ErrorMsg) (next_id : Z)
  | RenderEditRoll (roll_id : Z) (roll : Roll)
  | SendPdf (download_name : string) (pages : list (list Label))
  | NotFound
  | BadRequest
  | ImportFailed (e : Exn)
  | Unhandled (e : Exn).

(** An exception that leaves a view: werkzeug turns a missing form key into
    the response 400, anything else is the response 500. *)
Definition respond_exn (e : Exn) : Response :=
  match e with
  | BadRequestKeyError => BadRequest
  | _ => Unhandled e
  end.

(** [request.form[key]] and [request.files[key]]. *)
Definition required {A} (m : gmap string A) (key : string) : Result A :=
  match m !! key with
  | Some v => Ok v
  | None => Raise BadRequestKeyError
  end.

(** [int(x) if x else None] for [x = request.form.get(key)]. *)
Definition optional_int (x : option string) : Result (option Z) :=
  match x with
  | Some s =>
      if Py.truthy s
      then match Py.int s with Some v => Ok (Some v) | None => Raise ValueError end
      else Ok None
  | None => Ok None
  end.

(** SQLite holds an INTEGER in 64 bits: the [sqlite3] module raises
    [OverflowError] when a Python [int] outside that range is bound to a
    statement. *)
Definition in_int64 (k : Z) : bool := (- 2 ^ 63 <=? k) && (k <? 2 ^ 63).

Definition bindable (v : option Z) : bool :=
  match v with
  | Some k => in_int64 k
  | None => true
  end.

(** ** Helper functions *)

Definition ALLOWED_EXTENSIONS : list string := ["jpg"; "jpeg"; "png"].

Definition is_dot (c : ascii) : bool := Ascii.eqb c ".".

(** ['.' in filename and filename.rsplit('.', 1)[1].lower() in ALLOWED_EXTENSIONS] *)
Definition allowed_file (name : string) : bool :=
  Py.contains "." name
  && match Py.after_last is_dot name with
     | Some ext => bool_decide (Py.lower ext ∈ ALLOWED_EXTENSIONS)
     | None => false
     end.

(** [save_optimized_image]: the encoded image is written to the upload
    folder under [name]; an exception of Pillow leaves the view.  The folder
    is then taken as it was: [Image.open] fails before any file is opened,
    and [Image.save] removes the file it had created when the encoder
    fails. *)
Definition save_optimized_image (env : Env) (file : FileStorage) (name : string)
    (imgs : gmap string string) : Result (gmap string string) :=
  match optimized_image env name (stream file) with
  | Ok data => Ok (<[name := data]> imgs)
  | Raise e => Raise e
  end.

(** The upload block shared by [add_roll] and [edit_roll]:
    [if file and allowed_file(file.filename)], then the generated name and
    the saved image.  Returns the new name, if any, and the image folder. *)
Definition store_upload (env : Env) (file : FileStorage) (imgs : gmap string string)
    : Result (option string * gmap string string) :=
  if Py.truthy (filename file) && allowed_file (filename file)
  then
    let name := secure_filename env (now_timestamp env ++ "_" ++ filename file)%string in
    imgs' ← save_optimized_image env file name imgs;
    mret (Some name, imgs')
  else mret (None, imgs).

(** ** SQL: the [LIKE] operator of SQLite *)

Module Sql.

(** SQLite folds the letters [A..Z] only. *)
Definition fold_char (c : ascii) : ascii :=
  if Py.between 65 90 c then ascii_of_N (Py.code c + 32) else c.

Fixpoint fold_case (s : string) : string :=
  match s with
  | EmptyString => EmptyString
  | String c r => String (fold_char c) (fold_case r)
  end.

Definition is_percent (c : ascii) : bool := Ascii.eqb c "%".
Definition is_underscore (c : ascii) : bool := Ascii.eqb c "_".

(** [s LIKE pattern] with no escape character: [%] stands for any run of
    characters, [_] for one character, any other character for itself up to
    the case of ASCII letters. *)
Fixpoint like (pattern : string) : string → bool :=
  match pattern with
  | EmptyString => λ s, negb (Py.truthy s)
  | String p pattern' =>
      if is_percent p then
        fix any_run (s : string) : bool :=
          like pattern' s
          || match s with
             | EmptyString => false
             | String _ s' => any_run s'
             end
      else λ s,
        match s with
        | EmptyString => false
        | String c s' =>
            (is_underscore p || Ascii.eqb (fold_char p) (fold_char c))
            && like pattern' s'
        end
  end.

(** SQLite reads both operands of [LIKE] as C strings: each ends before its
    first NUL character. *)
Fixpoint c_string (s : string) : string :=
  match s with
  | EmptyString => EmptyString
  | String c r => if (Py.code c =? 0)%N then EmptyString else String c (c_string r)
  end.

(** SQLAlchemy's [column.contains(q)]: [column LIKE '%' || q || '%'], with
    the wildcards of [q] left as they are.  A NULL column matches nothing. *)
Definition column_contains (column : option string) (q : string) : bool :=
  match column with
  | Some v => like (c_string ("%" ++ q ++ "%")%string) (c_string v)
  | None => false
  end.

(** [SQLITE_MAX_LIKE_PATTERN_LENGTH]: [LIKE] fails on a pattern of more
    bytes. *)
Definition MAX_LIKE_PATTERN_LENGTH : Z := 50000.

(** The pattern is the query between two [%]. *)
Definition pattern_too_long (q : string) : bool :=
  MAX_LIKE_PATTERN_LENGTH <? 2 + Py.utf8_length q.

End Sql.

(** ** Roll views *)

(** [func.max(Roll.id)]: [None] on the empty table. *)
Definition max_id (t : gmap Z Roll) : option Z :=
  foldr (λ k acc, Some (from_option (Z.max k) k acc)) None (map_to_list t).*1.

(** [x or 0] *)
Definition or_zero (x : option Z) : Z :=
  match x with
  | Some v => if v =? 0 then 0 else v
  | None => 0
  end.

Definition next_id (t : gmap Z Roll) : Z := or_zero (max_id t) + 1.

(** [int(request.form.get('roll_id'))], with [next] on [ValueError] and on
    the [TypeError] of a missing field. *)
Definition custom_id_of (req : Request) (next : Z) : Z :=
  match form req !! "roll_id" with
  | Some s =>
      match Py.int s with
      | Some k => k
      | None => next
      end
  | None => next
  end.

(** [parse_date] of [add_roll]: [ValueError] is caught and gives [None]. *)
Definition add_parse_date (date_str : option string) : option Date :=
  match date_str with
  | Some s =>
      if Py.truthy s
      then match Strptime.strptime_ymd s with
           | Some d => Some d
           | None => None
           end
      else None
  | None => None
  end.

(** [parse_date] of [edit_roll]: [ValueError] is not caught. *)
Definition edit_parse_date (date_str : option string) : Result (option Date) :=
  match date_str with
  | Some s =>
      if Py.truthy s
      then match Strptime.strptime_ymd s with
           | Some d => Ok (Some d)
           | None => Raise ValueError
           end
      else Ok None
  | None => Ok None
  end.

(** [db.session.add(new_roll); db.session.commit()]: the primary key has to
    be free, and the key and [iso] have to fit the INTEGER columns. *)
Definition db_insert (id : Z) (r : Roll) (t : gmap Z Roll) : Result (gmap Z Roll) :=
  match t !! id with
  | Some _ => Raise IntegrityError
  | None =>
      if in_int64 id && bindable (iso r) then Ok (<[id := r]> t)
      else Raise OverflowError
  end.

(** Steps 3 and 4 of [add_roll] up to the new row: the form fields, the
    dates and the upload. *)
Definition add_roll_fields (env : Env) (st : State) (req : Request)
    : Result (Roll * gmap string string) :=
  film ← required (form req) "film_type";
  cam ← required (form req) "camera";
  let lens_v := form req !! "lens" in
  notes_v ← required (form req) "notes";
  iso_v ← optional_int (form req !! "iso");
  let started := add_parse_date (form req !! "date_started") in
  let finished := add_parse_date (form req !! "date_finished") in
  file ← required (files req) "contact_sheet";
  '(name, imgs) ← store_upload env file (images st);
  mret (mkRoll film iso_v (Some cam) lens_v started finished (utcnow env) name
          (Some notes_v), imgs).

(** [Roll.query.get(custom_id)] finds no row for a free key, and raises
    when the key does not fit an INTEGER.  The image of the upload is
    written before the commit: it stays when the commit fails. *)
Definition add_roll (env : Env) (st : State) (req : Request) : Response * State :=
  let next := next_id (rolls st) in
  match method req with
  | GET => (RenderAddRoll None next, st)
  | POST =>
      let custom_id := custom_id_of req next in
      match rolls st !! custom_id with
      | Some _ => (RenderAddRoll (Some (RollExists (Py.format_04d custom_id))) next, st)
      | None =>
          if in_int64 custom_id then
            match add_roll_fields env st req with
            | Raise e => (respond_exn e, st)
            | Ok (new_roll, imgs) =>
                let st1 := set_images imgs st in
                match db_insert custom_id new_roll (rolls st1) with
                | Ok t => (Redirect "index", set_rolls t st1)
                | Raise _ => (RenderAddRoll (Some DatabaseError) custom_id, st1)
                end
            end
          else (Unhandled OverflowError, st)
      end
  end.

(** The assignments of [edit_roll] to the loaded row; [contact_sheet] is
    assigned inside the upload block only. *)
Definition edit_roll_fields (env : Env) (st : State) (req : Request) (roll : Roll)
    : Result (Roll * gmap string string) :=
  film ← required (form req) "film_type";
  cam ← required (form req) "camera";
  let lens_v := form req !! "lens" in
  notes_v ← required (form req) "notes";
  iso_v ← optional_int (form req !! "iso");
  started ← edit_parse_date (form req !! "date_started");
  finished ← edit_parse_date (form req !! "date_finished");
  file ← required (files req) "contact_sheet";
  '(name, imgs) ← store_upload env file (images st);
  let sheet := match name with Some n => Some n | None => contact_sheet roll end in
  mret (mkRoll film iso_v (Some cam) lens_v started finished (date_added roll) sheet
          (Some notes_v), imgs).

(** [Roll.query.get_or_404(roll_id)]: 404 for a key that is not in the
    table, and [OverflowError] for one that does not fit an INTEGER. *)
Definition not_found (roll_id : Z) : Response :=
  if in_int64 roll_id then NotFound else Unhandled OverflowError.

(** The commit of [edit_roll] is not guarded: an [iso] that does not fit
    leaves the view as [OverflowError], after the image was written. *)
Definition edit_roll (env : Env) (st : State) (roll_id : Z) (req : Request)
    : Response * State :=
  match rolls st !! roll_id with
  | None => (not_found roll_id, st)
  | Some roll =>
      match method req with
      | POST =>
          match edit_roll_fields env st req roll with
          | Ok (roll', imgs) =>
              if bindable (iso roll') then
                (RedirectRoll roll_id,
                 set_rolls (<[roll_id := roll']> (rolls st)) (set_images imgs st))
              else (Unhandled OverflowError, set_images imgs st)
          | Raise e => (respond_exn e, st)
          end
      | GET => (RenderEditRoll roll_id roll, st)
      end
  end.

(** [os.remove] inside [try ... except: pass]: a missing file is no error.
    The name is taken as the name of a file of the image folder. *)
Definition remove_image (sheet : option string) (imgs : gmap string string)
    : gmap string string :=
  match sheet with
  | Some name => if Py.truthy name then delete name imgs else imgs
  | None => imgs
  end.

Definition delete_roll (st : State) (roll_id : Z) : Response * State :=
  match rolls st !! roll_id with
  | None => (not_found roll_id, st)
  | Some roll =>
      (Redirect "index",
       set_rolls (delete roll_id (rolls st))
         (set_images (remove_image (contact_sheet roll) (images st)) st))
  end.

(** [Roll.query.filter_by(id=k).all()] *)
Definition filter_by_id (k : Z) (t : gmap Z Roll) : list (Z * Roll) :=
  match t !! k with
  | Some r => [(k, r)]
  | None => []
  end.

(** The row satisfies
    [Roll.film_type.contains(q) | Roll.camera.contains(q)]. *)
Definition matches_query (q : string) (r : Roll) : bool :=
  Sql.column_contains (Some (film_type r)) q || Sql.column_contains (camera r) q.

Definition id_desc (a b : Z * Roll) : Prop := b.1 ≤ a.1.

#[global] Instance id_desc_dec : RelDecision id_desc.
Proof. intros a b. unfold id_desc. apply _. Defined.

(** The three queries of [index].  An id that does not fit an INTEGER
    raises when it is bound; [LIKE] fails on the first row it is evaluated
    on when the pattern is too long. *)
Definition index (st : State) (req : Request) : Response :=
  let search_query := default "" (args req !! "q") in
  if Py.truthy search_query then
    if Py.isdigit search_query then
      match Py.int search_query with
      | Some k =>
          if in_int64 k then RenderIndex (filter_by_id k (rolls st)) search_query
          else Unhandled OverflowError
      | None => Unhandled ValueError
      end
    else
      if Sql.pattern_too_long search_query && negb (bool_decide (rolls st = ∅))
      then Unhandled OperationalError
      else
        RenderIndex
          (filter (λ kr, matches_query search_query kr.2) (map_to_list (rolls st)))
          search_query
  else
    RenderIndex (take 5 (merge_sort id_desc (map_to_list (rolls st)))) search_query.

(** ** Settings *)

(** [setting.value == 'true' if setting else False] *)
Definition setting_is_true (t : gmap string (option string)) (key : string) : bool :=
  match t !! key with
  | Some v => bool_decide (v = Some "true")
  | None => false
  end.

(** The flag [gear_enabled] of [inject_globals]. *)
Definition gear_enabled (st : State) : bool :=
  setting_is_true (settings st) "enable_gearlog".

Definition toggle_feature (st : State) (feature_key : string) : Response * State :=
  let t := settings st in
  let t' :=
    match t !! feature_key with
    | None => <[feature_key := Some "true"]> t
    | Some v =>
        if bool_decide (v = Some "true")
        then <[feature_key := Some "false"]> t
        else <[feature_key := Some "true"]> t
    end in
  (Redirect "preferences", set_settings t' st).

(** ** Backup import *)

Definition backslash : ascii := ascii_of_N 92.
Definition is_slash (c : ascii) : bool := Ascii.eqb c "/".
Definition is_any_slash (c : ascii) : bool := is_slash c || Ascii.eqb c backslash.

(** [os.path.basename]: the text after the last separator of the platform.
    The paths it is given here start with [Images/] and so carry no drive. *)
Definition basename (pf : Platform) (path : string) : string :=
  let sep := match pf with Posix => is_slash | Windows => is_any_slash end in
  default path (Py.after_last sep path).

(** ['..' in member or member.startswith('/') or member.startswith('\')] *)
Definition blocked (member : string) : bool :=
  Py.contains ".." member
  || Py.startswith "/" member
  || Py.startswith (String backslash EmptyString) member.

(** [z.read(member)]: the zip module keeps, for each name, the last entry of
    that name; an unknown name raises [KeyError]. *)
Fixpoint zip_read (z : list (string * string)) (member : string) : option string :=
  match z with
  | [] => None
  | (name, data) :: rest =>
      match zip_read rest member with
      | Some later => Some later
      | None => if decide (name = member) then Some data else None
      end
  end.

(** [target_path], by the directory it lies in. *)
Inductive Target :=
  | InDataDir (name : string)
  | InImagesDir (name : string).

Definition target_path (pf : Platform) (member : string) : option Target :=
  if bool_decide (member ∈ ["filmlog.db"; "gearlog.db"]) then Some (InDataDir member)
  else if Py.startswith "Images/" member then
    let name := basename pf member in
    if Py.truthy name then Some (InImagesDir name) else None
  else None.

(** [NAME_MAX] of the common file systems, in bytes. *)
Definition NAME_MAX : Z := 255.

(** A name under which [open] creates or replaces a file of a directory:
    [.] and [..] are directories, and a longer name is refused. *)
Definition creatable (name : string) : bool :=
  negb (String.eqb name ".") && negb (String.eqb name "..")
  && (Py.utf8_length name <=? NAME_MAX).

(** [open(target_path, "wb").write(data)]; [open] raises an [OSError] on a
    name it cannot create. *)
Definition write_target (t : Target) (data : string) (st : State) : Result State :=
  match t with
  | InDataDir name => Ok (set_data_files (<[name := data]> (data_files st)) st)
  | InImagesDir name =>
      if creatable name then Ok (set_images (<[name := data]> (images st)) st)
      else Raise OSError
  end.

(** One turn of the loop over [z.namelist()]. *)
Definition import_member (pf : Platform) (z : list (string * string)) (st : State)
    (member : string) : Result State :=
  if blocked member then Ok st
  else
    match target_path pf member with
    | Some t =>
        match zip_read z member with
        | Some data => write_target t data st
        | None => Raise KeyError
        end
    | None => Ok st
    end.

(** The loop; an exception ends it and keeps what was written before. *)
Fixpoint import_members (pf : Platform) (z : list (string * string)) (names : list string)
    (st : State) : State * option Exn :=
  match names with
  | [] => (st, None)
  | member :: rest =>
      match import_member pf z st member with
      | Ok st' => import_members pf z rest st'
      | Raise e => (st, Some e)
      end
  end.

Definition import_backup (env : Env) (st : State) (req : Request) : Response * State :=
  match files req !! "backup_file" with
  | None => (BadRequest, st)
  | Some file =>
      if negb (Py.truthy (filename file)) || negb (Py.endswith ".zip" (filename file))
      then (Redirect "preferences", st)
      else
        match zip_entries env (stream file) with
        | None => (ImportFailed BadZipFile, st)
        | Some z =>
            match import_members (platform env) z z.*1 st with
            | (st', None) => (RedirectRestart, st')
            | (st', Some e) => (ImportFailed e, st')
            end
        end
  end.

(** ** Labels *)

Module Labels.

Definition COLUMNS : Z := 5.
Definition ROWS : Z := 13.

(** The canvas: the pages closed by [showPage] and the drawing code of the
    page in progress. *)
Record Canvas := mkCanvas { finished : list (list Label); code : list Label }.

Definition new_canvas : Canvas := mkCanvas [] [].

Definition showPage (c : Canvas) : Canvas := mkCanvas (finished c ++ [code c]) [].

Definition draw (l : Label) (c : Canvas) : Canvas := mkCanvas (finished c) (code c ++ [l]).

(** [c.save()] closes the page in progress when something was drawn on it. *)
Definition save (c : Canvas) : list (list Label) :=
  match code c with
  | [] => finished c
  | _ :: _ => finished (showPage c)
  end.

(** The label drawn in turn [i] with the number [current_num]. *)
Definition label_at (i current_num : Z) : Label :=
  let c := i mod COLUMNS in
  let r := (i / COLUMNS) mod ROWS in
  let roll_id_str := Py.format_04d current_num in
  mkLabel c r ("ROLL #" ++ roll_id_str)%string roll_id_str.

(** The body of [for i in range(count)] on the canvas and [current_num]. *)
Definition turn (s : Canvas * Z) (i : Z) : Canvas * Z :=
  let '(c, current_num) := s in
  let c1 := if (0 <? i) && (i mod (COLUMNS * ROWS) =? 0) then showPage c else c in
  (draw (label_at i current_num) c1, current_num + 1).

Definition draw_labels (start_num count : Z) : Canvas * Z :=
  foldl turn (new_canvas, start_num) (seqZ 0 count).

(** The [try] block on the form: both numbers fall back together. *)
Definition parameters (req : Request) : Z * Z :=
  let start_num :=
    match form req !! "start_num" with Some s => Py.int s | None => Some 1 end in
  let count :=
    match form req !! "label_count" with Some s => Py.int s | None => Some 65 end in
  match start_num, count with
  | Some a, Some b => (a, b)
  | _, _ => (1, 65)
  end.

(** [str(n)] *)
Definition str (n : Z) : string :=
  if n <? 0 then String "-" (Py.decimal (Z.abs_N n)) else Py.decimal (Z.abs_N n).

Definition document (start_num count : Z) : list (list Label) :=
  save (draw_labels start_num count).1.

Definition generate_labels (req : Request) : Response :=
  let '(start_num, count) := parameters req in
  let '(c, current_num) := draw_labels start_num count in
  SendPdf ("labels_" ++ str start_num ++ "_to_" ++ str (current_num - 1) ++ ".pdf")%string
    (save c).

(** The label at place [i mod 65] of page [i / 65] of a document. *)
Definition cell (pages : list (list Label)) (i : Z) : option Label :=
  pages !! Z.to_nat (i / 65) ≫= λ p, p !! Z.to_nat (i mod 65).

(** The closed pages of a canvas followed by the page in progress. *)
Definition pages_of (c : Canvas) : list (list Label) := finished c ++ [code c].

(** The state of the loop after [n] turns: the first [n] labels lie on the
    pages in rows of 65, every closed page is full, and the page in progress
    holds the rest. *)
Record laid_out (start_num n : Z) (s : Canvas * Z) : Prop := {
  lo_num : s.2 = start_num + n;
  lo_empty : n = 0 → s.1 = new_canvas;
  lo_finished : 0 < n → Z.of_nat (length (finished s.1)) = (n - 1) / 65;
  lo_full : Forall (λ p, length p = 65%nat) (finished s.1);
  lo_code : 0 < n → Z.of_nat (length (code s.1)) = (n - 1) mod 65 + 1;
  lo_cell : ∀ i, 0 ≤ i < n → cell (pages_of s.1) i = Some (label_at i (start_num + i))
}.

End Labels.

(** ** Runs of create and delete requests *)

Inductive Op :=
  | Create (env : Env) (req : Request)
  | Delete (roll_id : Z).

(** What a request did to the table: a create that ends in the redirect
    has stored a roll under [custom_id]; a delete that ends in the redirect
    has removed the roll. *)
Inductive Event :=
  | Created (roll_id : Z)
  | Deleted (roll_id : Z)
  | Refused.

Definition apply_op (st : State) (op : Op) : Event * State :=
  match op with
  | Create env req =>
      let '(resp, st') := add_roll env st req in
      (match resp with
       | Redirect _ => Created (custom_id_of req (next_id (rolls st)))
       | _ => Refused
       end, st')
  | Delete roll_id =>
      let '(resp, st') := delete_roll st roll_id in
      (match resp with Redirect _ => Deleted roll_id | _ => Refused end, st')
  end.

(** The state each request of a run meets, with what the request did. *)
Fixpoint run (st : State) (ops : list Op) : list (State * Event) :=
  match ops with
  | [] => []
  | op :: rest => let '(e, st') := apply_op st op in (st, e) :: run st' rest
  end.

(** The invariant as the specification words it: once a roll is deleted, no
    later create of the run is given its id. *)
Definition ids_never_reused : Prop :=
  ∀ st ops (i j : nat) (k : Z) st_i st_j,
    (i < j)%nat →
    run st ops !! i = Some (st_i, Deleted k) →
    run st ops !! j ≠ Some (st_j, Created k).

(** ** Words of the specification about requests *)

(** The request with one form field left out. *)
Definition without_field (key : string) (req : Request) : Request :=
  mkRequest (method req) (args req) (delete key (form req)) (files req).

(** The request with an empty file field in place of the upload, as a
    browser sends it when no file is chosen. *)
Definition without_upload (req : Request) : Request :=
  mkRequest (method req) (args req) (form req)
    (<["contact_sheet" := mkFile EmptyString EmptyString]> (files req)).

(** A file name with a final extension of the allow-list, whatever the case
    of its letters. *)
Definition has_allowed_extension (name : string) : Prop :=
  ∃ stem ext, name = (stem ++ "." ++ ext)%string
              ∧ Py.all_chars (λ c, negb (is_dot c)) ext = true
              ∧ Py.lower ext ∈ ALLOWED_EXTENSIONS.

(** A file name with no dot, or with a final extension outside the
    allow-list. *)
Definition has_no_allowed_extension (name : string) : Prop :=
  Py.all_chars (λ c, negb (is_dot c)) name = true
  ∨ ∃ stem ext, name = (stem ++ "." ++ ext)%string
                ∧ Py.all_chars (λ c, negb (is_dot c)) ext = true
                ∧ Py.lower ext ∉ ALLOWED_EXTENSIONS.

(** The request brings a new contact sheet the upload block accepts. *)
Definition new_sheet_supplied (req : Request) : Prop :=
  ∃ file, files req !! "contact_sheet" = Some file
          ∧ filename file ≠ EmptyString
          ∧ has_allowed_extension (filename file).

(** The fields of the form that both roll views read before anything is
    stored are present and readable: [film_type], [camera] and [notes] are
    in the form, and [iso] is empty or an integer. *)
Definition fields_accepted (req : Request) : Prop :=
  is_Some (form req !! "film_type")
  ∧ is_Some (form req !! "camera")
  ∧ is_Some (form req !! "notes")
  ∧ ∃ v, optional_int (form req !! "iso") = Ok v.

(** A number that fits an INTEGER column of SQLite. *)
Definition fits_int64 (k : Z) : Prop := - 2 ^ 63 ≤ k < 2 ^ 63.

(** What a form field that may be left empty says: nothing when it is
    missing or empty; otherwise the integer its text denotes, or the date. *)
Definition says_int (x : option string) (v : option Z) : Prop :=
  match v with
  | None => x = None ∨ x = Some EmptyString
  | Some k => ∃ s, x = Some s ∧ s ≠ EmptyString ∧ Py.int s = Some k
  end.

Definition says_date (x : option string) (d : option Date) : Prop :=
  match d with
  | None => x = None ∨ x = Some EmptyString
  | Some day =>
      ∃ s, x = Some s ∧ s ≠ EmptyString ∧ Strptime.strptime_ymd s = Some day
  end.

(** The form of a roll can be stored with film [film], camera [cam], notes
    [notes_v] and speed [v]: the three fields are in the form, and [iso] is
    empty or an integer that fits its column. *)
Definition form_says (req : Request) (film cam notes_v : string) (v : option Z) : Prop :=
  form req !! "film_type" = Some film
  ∧ form req !! "camera" = Some cam
  ∧ form req !! "notes" = Some notes_v
  ∧ says_int (form req !! "iso") v
  ∧ ∀ k, v = Some k → fits_int64 k.

(** The request brings no contact sheet the upload block accepts: the file
    field is there, with an empty name or with a name whose extension is
    not allowed. *)
Definition no_sheet_supplied (req : Request) : Prop :=
  ∃ file, files req !! "contact_sheet" = Some file
          ∧ (filename file = EmptyString ∨ has_no_allowed_extension (filename file)).

(** The claim about the edit form as the specification words it: without a
    valid new file the roll keeps its contact sheet and has the fields of
    the form. *)
Definition edit_as_specified : Prop :=
  ∀ env st roll_id req roll,
    rolls st !! roll_id = Some roll → method req = POST → no_sheet_supplied req →
    ∃ roll',
      rolls (edit_roll env st roll_id req).2 !! roll_id = Some roll'
      ∧ contact_sheet roll' = contact_sheet roll
      ∧ form req !! "film_type" = Some (film_type roll')
      ∧ form req !! "camera" = camera roll'
      ∧ form req !! "notes" = notes roll'
      ∧ form req !! "lens" = lens roll'.

(** The claim about a dropped upload as the specification words it. *)
Definition upload_dropped_as_specified : Prop :=
  ∀ env st req file,
    method req = POST →
    rolls st !! custom_id_of req (next_id (rolls st)) = None →
    files req !! "contact_sheet" = Some file →
    has_no_allowed_extension (filename file) →
    ∃ r,
      (add_roll env st req).1 = Redirect "index"
      ∧ rolls (add_roll env st req).2
        = <[custom_id_of req (next_id (rolls st)) := r]> (rolls st)
      ∧ images (add_roll env st req).2 = images st
      ∧ contact_sheet r = None.

(** What a form field of [generate_labels] says: the default when it is
    missing, and otherwise the integer its text denotes. *)
Definition says_number (x : option string) (default_value v : Z) : Prop :=
  match x with
  | None => v = default_value
  | Some s => Py.int s = Some v
  end.

(** A number Python writes out: one of at most 4300 digits. *)
Definition printable (n : Z) : Prop := - 10 ^ 4300 < n < 10 ^ 4300.

(** ** Words of the specification about archive entries *)


(** The separators of the platform. *)
Definition is_sep (pf : Platform) (c : ascii) : Prop :=
  match pf with
  | Posix => c = "/"%char
  | Windows => c = "/"%char ∨ c = backslash
  end.

(** [name] is what follows the last separator of [path]. *)
Definition is_basename (pf : Platform) (path name : string) : Prop :=
  ∃ dir c, path = (dir ++ String c name)%string
           ∧ is_sep pf c
           ∧ ∀ a x b, name = (a ++ String x b)%string → ¬ is_sep pf x.

Definition database_names : list string := ["filmlog.db"; "gearlog.db"].





(** ** Words of the specification about the search *)

(** The integer a string of decimal digits denotes. *)
Fixpoint horner (acc : Z) (s : string) : Z :=
  match s with
  | EmptyString => acc
  | String c r => horner (10 * acc + (Z.of_N (Py.code c) - 48)) r
  end.

Definition decimal_value (s : string) : Z := horner 0 s.

(** [q] is a substring of [s]. *)
Definition substring (q s : string) : Prop :=
  ∃ a b, s = (a ++ q ++ b)%string.

(** [q] is a substring of [s] up to the case of the letters [A..Z]. *)
Definition substring_nocase (q s : string) : Prop :=
  ∃ a m b, s = (a ++ m ++ b)%string ∧ Sql.fold_case m = Sql.fold_case q.

(** The film name or the camera name of the roll holds [q]. *)
Definition name_holds (holds : string → string → Prop) (q : string) (r : Roll) : Prop :=
  holds q (film_type r) ∨ ∃ c, camera r = Some c ∧ holds q c.

(** No character of [q] is the NUL character. *)
Definition no_nul (q : string) : Prop :=
  Py.all_chars (λ c, negb (Py.code c =? 0)%N) q = true.

(** [t] is what SQLite reads of the text [v] when it compares it: the text
    up to its first NUL character. *)
Definition read_as_text (v t : string) : Prop :=
  no_nul t ∧ (t = v ∨ ∃ rest, v = (t ++ String (ascii_of_N 0) rest)%string).

(** The text [v], as SQLite reads it, holds [q] up to the case of the
    letters [A..Z]. *)
Definition text_holds (q v : string) : Prop :=
  ∃ t, read_as_text v t ∧ substring_nocase q t.

(** No character of [q] is a wildcard of [LIKE]. *)
Definition no_wildcard (q : string) : Prop :=
  Py.all_chars (λ c, negb (Sql.is_percent c || Sql.is_underscore c)) q = true.

(** The search as the specification words it. *)
Definition search_as_specified : Prop :=
  ∀ st req q, args req !! "q" = Some q → q ≠ EmptyString →
    ∃ results,
      index st req = RenderIndex results q
      ∧ (Py.isdigit q = true →
           (length results ≤ 1)%nat
           ∧ ∀ k r, (k, r) ∈ results ↔ Py.int q = Some k ∧ rolls st !! k = Some r)
      ∧ (Py.isdigit q = false →
           ∀ k r, (k, r) ∈ results ↔ rolls st !! k = Some r ∧ name_holds substring q r).

(** ** Sample data *)

Module Sample.

Definition env : Env :=
  mkEnv "1700000000.25" 1700000000 (λ name, name) (λ _ data, Ok data)
    (λ _, None) Posix.

Definition empty_state : State := mkState ∅ ∅ ∅ ∅.

Definition no_file : FileStorage := mkFile "" "".

(** The form of the add and edit pages with every field filled in. *)
Definition roll_form (extra : list (string * string)) : gmap string string :=
  list_to_map
    (extra ++ [("film_type", "Portra 400"); ("camera", "AE-1"); ("lens", "50mm");
               ("notes", ""); ("iso", "400")]).

Definition post_roll (extra : list (string * string)) (file : FileStorage) : Request :=
  mkRequest POST ∅ (roll_form extra) {[ "contact_sheet" := file ]}.

Definition portra : Roll :=
  mkRoll "Portra 400" (Some 400) (Some "AE-1") (Some "50mm") None None 1700000000
    None (Some "").

Definition kodak : Roll :=
  mkRoll "Kodak Gold" (Some 200) (Some "Pentax K1000") None None None 1700000000
    (Some "old.jpg") (Some "").

Definition one_roll : State := mkState {[ 4 := kodak ]} ∅ {[ "old.jpg" := "JPEG" ]} ∅.

Definition search (q : string) : Request := mkRequest GET {[ "q" := q ]} ∅ ∅.

(** The one-character string of U+00B2, superscript two. *)
Definition superscript_two : string := String (ascii_of_N 178) EmptyString.

(** The one-character string of U+0000. *)
Definition nul : string := String (ascii_of_N 0) EmptyString.



Definition restore : Request :=
  mkRequest POST ∅ ∅ {[ "backup_file" := mkFile "backup.zip" "PK" ]}.

End Sample.

(** ** Network settings *)

(** [AppSetting.query.filter_by(key=k).first()], then either a new row or
    an assignment to [value]: the key holds the value afterwards. *)
Definition upsert_setting (key value : string) (t : gmap string (option string))
    : gmap string (option string) :=
  match t !! key with
  | None => <[key := Some value]> t
  | Some _ => <[key := Some value]> t
  end.

(** ['0.0.0.0' if host_type == 'network' else '127.0.0.1'] *)
Definition bind_address (host_type : option string) : string :=
  if bool_decide (host_type = Some "network") then "0.0.0.0" else "127.0.0.1".

Definition save_advanced (st : State) (req : Request) : Response * State :=
  let port := default "5000" (form req !! "server_port") in
  let new_host := bind_address (form req !! "server_host") in
  (Redirect "preferences",
   set_settings
     (upsert_setting "server_host" new_host
        (upsert_setting "server_port" port (settings st))) st).

(** [app.config]: the port and the host the process was started with; a
    key is missing when the process was not started by the main block. *)
Record Running := mkRunning {
  RUNNING_PORT : option Z;
  RUNNING_HOST : option (option string)
}.

(** [str(x)] for a value that is a [str] or [None]. *)
Definition str_of_value (x : option string) : string := default "None" x.

(** The dictionary [inject_globals] returns. *)
Record Globals := mkGlobals {
  globals_gear_enabled : bool;
  current_port : option string;
  current_host : option string;
  pending_changes : bool
}.

Definition inject_globals (run : Running) (st : State) : Globals :=
  let db_port :=
    match settings st !! "server_port" with
    | Some v => v
    | None => Some "5000"
    end in
  let db_host :=
    match settings st !! "server_host" with
    | Some v => v
    | None => Some "0.0.0.0"
    end in
  let port_differs :=
    bool_decide (str_of_value db_port ≠ Labels.str (default 5000 (RUNNING_PORT run))) in
  let host_differs :=
    bool_decide
      (str_of_value db_host ≠ str_of_value (default (Some "0.0.0.0") (RUNNING_HOST run))) in
  mkGlobals (gear_enabled st) db_port db_host (port_differs || host_differs).

(** The [try] block of the main block: any exception gives the port 5000
    and the host 0.0.0.0 together. *)
Definition startup (t : gmap string (option string)) : Z * option string :=
  let port :=
    match t !! "server_port" with
    | Some (Some v) => Py.int v
    | Some None => None
    | None => Some 5000
    end in
  let host :=
    match t !! "server_host" with
    | Some v => v
    | None => Some "0.0.0.0"
    end in
  match port with
  | Some p => (p, host)
  | None => (5000, Some "0.0.0.0")
  end.

(** [app.config] after the main block ran on the settings. *)
Definition started (t : gmap string (option string)) : Running :=
  mkRunning (Some (startup t).1) (Some (startup t).2).

(** ** Gear views *)

(** A row of the [Gear] table of the second database, without its key. *)
Record Gear := mkGear {
  gear_name : string;
  hardware_type : string;
  serial_number : option string;
  gear_added : Z
}.

Inductive GearResponse :=
  | GearRedirect (endpoint : string)
  | RenderGear (gear_list : list (Z * Gear))
  | RenderAddGear
  | GearNotFound
  | GearBadRequest.

(** [ORDER BY hardware_type ASC, name ASC] in the binary collation: by code
    points, a prefix first. *)
Definition gear_leb (a b : Z * Gear) : bool :=
  match String.compare (hardware_type a.2) (hardware_type b.2) with
  | Lt => true
  | Eq => String.leb (gear_name a.2) (gear_name b.2)
  | Gt => false
  end.

Definition gear_order (a b : Z * Gear) : Prop := gear_leb a b = true.

#[global] Instance gear_order_dec : RelDecision gear_order.
Proof. intros a b. unfold gear_order. apply _. Defined.

(** Rows equal in both columns come in the order of the table scan, which
    SQL leaves open. *)
Definition gear_index (st : State) (gear : gmap Z Gear) : GearResponse :=
  match settings st !! "enable_gearlog" with
  | None => GearRedirect "index"
  | Some v =>
      if bool_decide (v ≠ Some "true") then GearRedirect "index"
      else RenderGear (merge_sort gear_order (map_to_list gear))
  end.




(** ** Backup export *)

(** [zip_file.write(path, arcname=name)] when the file exists. *)
Definition archive_file (name : string) (dir : gmap string string)
    : list (string * string) :=
  match dir !! name with
  | Some data => [(name, data)]
  | None => []
  end.

(** The entries [backup] writes, in order: the two databases that exist,
    then every file of the image directory under [Images/]. *)
Definition backup_archive (include_images : bool) (st : State) : list (string * string) :=
  archive_file "filmlog.db" (data_files st)
  ++ archive_file "gearlog.db" (data_files st)
  ++ (if include_images
      then (λ fd, (("Images/" ++ fd.1)%string, fd.2)) <$> map_to_list (images st)
      else []).

(** The download name and the archive; [today] is the text of
    [datetime.now().strftime('%Y-%m-%d')]. *)
Definition backup (today : string) (st : State) (req : Request)
    : string * list (string * string) :=
  let include_images := bool_decide (args req !! "images" = Some "true") in
  (if include_images
   then ("FilmLog_Full_Backup_" ++ today ++ ".zip")%string
   else ("FilmLog_Data_Backup_" ++ today ++ ".zip")%string,
   backup_archive include_images st).

(** The name under which one entry is written to the image directory, and
    to the data directory, if it is written there. *)
Definition image_target (pf : Platform) (member : string) : option string :=
  if blocked member then None
  else match target_path pf member with
       | Some (InImagesDir name) => if creatable name then Some name else None
       | _ => None
       end.


Definition data_target (pf : Platform) (member : string) : option string :=
  if blocked member then None
  else match target_path pf member with
       | Some (InDataDir name) => Some name
       | _ => None
       end.

(** A file name: not empty, a name a file of a directory can have, with no
    separator of the platform in it. *)
Definition file_name (pf : Platform) (f : string) : Prop :=
  f ≠ EmptyString ∧ creatable f = true
  ∧ ∀ a x b, f = (a ++ String x b)%string → ¬ is_sep pf x.

(** A name that is a file name on both platforms and has no drive in
    front: no separator and no colon. *)
Definition portable_name (f : string) : Prop :=
  file_name Windows f ∧ ∀ a b, f ≠ (a ++ String ":" b)%string.

(** ** Other views *)

(** [Roll.formatted_id] *)
Definition formatted_id (roll_id : Z) : string := Py.format_04d roll_id.

(** ** Sample data for the backup *)

Module Fixture.

Definition library : State :=
  mkState ∅ ∅ {[ "a.jpg" := "JPEG" ]} {[ "filmlog.db" := "SQLite" ]}.

(** An environment in which the upload is read as the full backup of
    [library]. *)
Definition env : Env :=
  mkEnv "1700000000.25" 1700000000 (λ name, name) (λ _ data, Ok data)
    (λ _, Some (backup_archive true library)) Posix.

Definition upload : FileStorage := mkFile "FilmLog_Full_Backup_2024-01-01.zip" "PK".

Definition restore : Request := mkRequest POST ∅ ∅ {[ "backup_file" := upload ]}.

End Fixture.

(** * Properties *)

(** ** The library functions at sample arguments *)

Example int_examples :
  Py.int "0004" = Some 4
  ∧ Py.int "  -1_000 " = Some (-1000)
  ∧ Py.int "+7" = Some 7
  ∧ Py.int "abc" = None
  ∧ Py.int "" = None
  ∧ Py.int "1__0" = None
  ∧ Py.int "1.5" = None
  ∧ Py.int Sample.superscript_two = None
  ∧ Py.int (String (ascii_of_N 28) "7") = None
  ∧ Py.int (String (ascii_of_N 160) "7") = Some 7
  ∧ Py.int (String (ascii_of_N 9) "7") = Some 7.
Proof. by vm_compute. Qed.

Example format_04d_examples :
  Py.format_04d 66 = "0066"
  ∧ Py.format_04d (-1) = "-001"
  ∧ Py.format_04d 12345 = "12345".
Proof. by vm_compute. Qed.

Example strptime_examples :
  Strptime.strptime_ymd "2024-02-29" = Some (mkDate 2024 2 29)
  ∧ Strptime.strptime_ymd "2023-02-29" = None
  ∧ Strptime.strptime_ymd "2024-1-5" = Some (mkDate 2024 1 5)
  ∧ Strptime.strptime_ymd "2024-13-05" = None
  ∧ Strptime.strptime_ymd "2024-12-32" = None
  ∧ Strptime.strptime_ymd "0000-01-01" = None
  ∧ Strptime.strptime_ymd "2024-01-01 " = None
  ∧ Strptime.strptime_ymd "31/12/2024" = None.
Proof. by vm_compute. Qed.

Example allowed_file_examples :
  allowed_file "scan.JPG" = true
  ∧ allowed_file "scan.tar.png" = true
  ∧ allowed_file "scan.png.txt" = false
  ∧ allowed_file "jpg" = false
  ∧ allowed_file "scan." = false.
Proof. by vm_compute. Qed.

Example basename_examples :
  basename Posix "Images/sub/a.jpg" = "a.jpg"
  ∧ basename Posix "Images/" = ""
  ∧ basename Windows (String.append "Images/sub" (String backslash "a.jpg")) = "a.jpg"
  ∧ basename Posix (String.append "Images/sub" (String backslash "a.jpg"))
    = String.append "sub" (String backslash "a.jpg").
Proof. by vm_compute. Qed.

Example like_examples :
  Sql.like "%kodak%" "Kodak Gold" = true
  ∧ Sql.like "%a_c%" "xxabcxx" = true
  ∧ Sql.like "%a_c%" "xxacxx" = false
  ∧ Sql.like "%%%" "" = true
  ∧ Sql.like "%gold%" "Kodak" = false
  ∧ Sql.column_contains (Some "Kodak Gold") Sample.nul = true
  ∧ Sql.column_contains (Some ("Kodak" ++ Sample.nul ++ "Gold")) "gold" = false.
Proof. by vm_compute. Qed.

(** ** Strings *)

Section string_facts.

Implicit Types p s t : string.

Lemma startswith_spec p s :
  Py.startswith p s = true ↔ ∃ r, s = (p ++ r)%string.
Proof.
  revert s. induction p as [|a p IH]; intros s; simpl.
  - split; [intros _; by exists s | done].
  - destruct s as [|b s].
    + split; [done | intros [r Hr]; discriminate].
    + rewrite andb_true_iff, Ascii.eqb_eq, IH. split.
      * intros [-> [r ->]]. by exists r.
      * intros [r Hr]. injection Hr as -> ->. eauto.
Qed.

Lemma contains_spec p s :
  Py.contains p s = true ↔ ∃ a b, s = (a ++ p ++ b)%string.
Proof.
  induction s as [|c s IH]; simpl; rewrite orb_true_iff, startswith_spec.
  - split.
    + intros [[r Hr] | ?]; [|done]. by exists EmptyString, r.
    + intros ([|??] & b & Hb); [|discriminate]. left. by exists b.
  - rewrite IH. split.
    + intros [[r Hr] | (a & b & ->)].
      * by exists EmptyString, r.
      * by exists (String c a), b.
    + intros ([|c' a] & b & Hb).
      * left. by exists b.
      * right. injection Hb as -> ->. by exists a, b.
Qed.

Lemma all_chars_app f s t :
  Py.all_chars f (s ++ t)%string = Py.all_chars f s && Py.all_chars f t.
Proof. induction s as [|c s IH]; simpl; [done|]. by rewrite IH, andb_assoc. Qed.

Lemma after_last_None sep s :
  Py.after_last sep s = None ↔ Py.all_chars (λ x, negb (sep x)) s = true.
Proof.
  induction s as [|c s IH]; simpl; [done|].
  destruct (Py.after_last sep s) as [u|].
  - split; [done|]. intros [_ H]%andb_true_iff. apply IH in H. done.
  - destruct (sep c); simpl; [done|]. split; [intros _; by apply IH | done].
Qed.

(** [after_last] cuts at the last separator: what it returns holds no
    separator and follows one. *)
Lemma after_last_Some sep s t :
  Py.after_last sep s = Some t ↔
  ∃ pre c, s = (pre ++ String c t)%string ∧ sep c = true
           ∧ Py.all_chars (λ x, negb (sep x)) t = true.
Proof.
  revert t. induction s as [|c s IH]; intros t; simpl.
  - split; [done | intros ([|??] & ? & ? & _); discriminate].
  - destruct (Py.after_last sep s) as [u|] eqn:Hs.
    + split.
      * intros [= ->]. destruct (proj1 (IH t) eq_refl) as (pre & c' & -> & ? & ?).
        by exists (String c pre), c'.
      * intros (pre & c' & Heq & Hc' & Ht).
        destruct pre as [|x pre]; simpl in Heq; injection Heq as -> Heq.
        -- subst s. apply after_last_None in Ht. congruence.
        -- apply IH. eauto.
    + apply after_last_None in Hs as Hall. split.
      * destruct (sep c) eqn:Hc; [|done]. intros [= ->].
        by exists EmptyString, c.
      * intros (pre & c' & Heq & Hc' & Ht).
        destruct pre as [|x pre]; simpl in Heq; injection Heq as -> Heq.
        -- subst s. by rewrite Hc'.
        -- subst s. rewrite all_chars_app in Hall. simpl in Hall.
           rewrite Hc' in Hall. rewrite andb_false_r in Hall. done.
Qed.

End string_facts.

(** ** The next id *)

Lemma foldr_max_upper (l : list Z) (k : Z) :
  k ∈ l →
  ∃ m, foldr (λ x acc, Some (from_option (Z.max x) x acc)) None l = Some m ∧ k ≤ m.
Proof.
  induction l as [|x l IH]; [by intros ?%elem_of_nil|].
  intros [-> | Hk]%elem_of_cons; simpl.
  - eexists; split; [done|].
    destruct (foldr _ None l); simpl; lia.
  - destruct (IH Hk) as (m & -> & ?). eexists; split; [done|]. simpl. lia.
Qed.

Lemma max_id_upper (t : gmap Z Roll) (k : Z) :
  is_Some (t !! k) → ∃ m, max_id t = Some m ∧ k ≤ m.
Proof.
  intros [r Hr]. apply foldr_max_upper.
  apply list_elem_of_fmap. exists (k, r). split; [done|].
  by apply elem_of_map_to_list.
Qed.

(** Every id of the table is below the id computed for the next roll. *)
Lemma next_id_above (t : gmap Z Roll) (k : Z) :
  is_Some (t !! k) → k < next_id t.
Proof.
  intros (m & Hm & ?)%max_id_upper. unfold next_id. rewrite Hm. simpl.
  destruct (Z.eqb_spec m 0); lia.
Qed.

Lemma next_id_fresh (t : gmap Z Roll) : t !! next_id t = None.
Proof.
  destruct (t !! next_id t) eqn:H; [|done].
  assert (next_id t < next_id t); [|lia]. apply next_id_above. eauto.
Qed.

(** ** Roll creation *)

(** C1.  A create-roll request whose [roll_id] field reads as the id of a
    roll of the table gets the add form again, with the message that the
    roll exists, and the whole state (the table with it) is left as it
    was. *)
Theorem add_roll_rejects_taken_id env st req s k :
  method req = POST →
  form req !! "roll_id" = Some s →
  Py.int s = Some k →
  is_Some (rolls st !! k) →
  add_roll env st req
  = (RenderAddRoll (Some (RollExists (Py.format_04d k))) (next_id (rolls st)), st).
Proof.
  intros Hm Hf Hs [r Hr]. unfold add_roll, custom_id_of.
  by rewrite Hm, Hf, Hs, Hr.
Qed.

(** ** Settings *)

Lemma toggle_feature_lookup st key :
  settings (toggle_feature st key).2 !! key
  = Some (Some (if setting_is_true (settings st) key then "false" else "true")).
Proof.
  unfold toggle_feature, setting_is_true; simpl.
  destruct (settings st !! key) as [v|]; [case_bool_decide|];
    by rewrite lookup_insert_eq.
Qed.

Lemma toggle_feature_flips st key :
  settings st !! key ≠ None →
  setting_is_true (settings (toggle_feature st key).2) key
  = negb (setting_is_true (settings st) key).
Proof.
  intros Hk. unfold setting_is_true at 1. rewrite toggle_feature_lookup.
  unfold setting_is_true. destruct (settings st !! key) as [v|]; [|done].
  by repeat case_bool_decide.
Qed.

(** C6.  Toggling a feature twice gives back the truth value the flag read
    as before (the value is the string ['true'], a missing key reads as
    false), and one toggle of a missing key creates it with ['true']. *)
Theorem toggle_feature_twice st key :
  setting_is_true (settings (toggle_feature (toggle_feature st key).2 key).2) key
  = setting_is_true (settings st) key
  ∧ (settings st !! key = None →
     settings (toggle_feature st key).2 !! key = Some (Some "true")).
Proof.
  split.
  - rewrite toggle_feature_flips.
    + unfold setting_is_true at 1. rewrite toggle_feature_lookup.
      unfold setting_is_true. destruct (settings st !! key) as [v|]; [|done].
      by repeat case_bool_decide.
    + by rewrite toggle_feature_lookup.
  - intros Hk. rewrite toggle_feature_lookup. unfold setting_is_true. by rewrite Hk.
Qed.

(** ** Labels: the form *)

(** C9.  When [start_num] or [label_count] is present and [int] raises on
    it, the generator works with [start_num = 1] and [count = 65]. *)
Theorem generate_labels_fallback req :
  (∃ s, form req !! "start_num" = Some s ∧ Py.int s = None)
  ∨ (∃ s, form req !! "label_count" = Some s ∧ Py.int s = None) →
  Labels.parameters req = (1, 65)
  ∧ Labels.generate_labels req
    = SendPdf "labels_1_to_65.pdf" (Labels.document 1 65).
Proof.
  intros H.
  assert (Labels.parameters req = (1, 65)) as Hp.
  { unfold Labels.parameters.
    destruct H as [(s & -> & ->) | (s & -> & ->)]; [done|].
    by destruct (form req !! "start_num") as [a|]; [destruct (Py.int a)|]. }
  split; [done|]. unfold Labels.generate_labels. rewrite Hp. by vm_compute.
Qed.

(** ** Labels: the pages *)

Section label_pages.

Import Labels.

Lemma cell_app_l pages more i :
  (Z.to_nat (i / 65) < length pages)%nat →
  cell (pages ++ more) i = cell pages i.
Proof. intros H. unfold cell. by rewrite lookup_app_l by lia. Qed.

Lemma cell_last pages p i :
  0 ≤ i → Z.of_nat (length pages) = i / 65 →
  cell (pages ++ [p]) i = p !! Z.to_nat (i mod 65).
Proof.
  intros Hi H. unfold cell.
  replace (Z.to_nat (i / 65)) with (length pages + 0)%nat by lia.
  by rewrite lookup_app_r, Nat.add_comm, Nat.add_sub by lia.
Qed.

Ltac div65 := Z.div_mod_to_equations; lia.

(** One turn of the loop keeps the layout. *)
Lemma turn_laid_out start_num n s :
  0 ≤ n → laid_out start_num n s → laid_out start_num (n + 1) (turn s n).
Proof.
  intros Hn [Hnum Hempty Hfin Hfull Hcode Hcell]. destruct s as [c cur].
  cbn [fst snd] in *. subst cur. unfold turn. change (COLUMNS * ROWS) with 65.
  destruct ((0 <? n) && (n mod 65 =? 0)) eqn:Hbreak.
  - apply andb_true_iff in Hbreak as [Hpos%Z.ltb_lt Hmod%Z.eqb_eq].
    specialize (Hfin Hpos). specialize (Hcode Hpos).
    split; cbn [fst snd finished code draw showPage app];
      replace (n + 1 - 1) with n by lia; [lia | lia | | | | ].
    + intros _. rewrite ?length_app; cbn [length app]. div65.
    + apply Forall_app. split; [done|]. apply Forall_singleton. div65.
    + intros _. rewrite ?length_app; cbn [length app]. div65.
    + intros i Hi. unfold pages_of; cbn [finished code draw showPage].
      destruct (decide (i = n)) as [->|Hne].
      * rewrite cell_last; [by rewrite Hmod | lia |].
        rewrite ?length_app; cbn [length app]. div65.
      * rewrite cell_app_l; [apply Hcell; lia |].
        rewrite ?length_app; cbn [length app]. div65.
  - assert (n = 0 ∨ 0 < n ∧ n mod 65 ≠ 0) as [-> | [Hpos Hmod]].
    { apply andb_false_iff in Hbreak as [?%Z.ltb_ge | ?%Z.eqb_neq]; lia. }
    { rewrite (Hempty eq_refl).
      split; cbn [fst snd finished code draw new_canvas];
        [lia | done | done | done | done |].
      intros i Hi. by assert (i = 0) as -> by lia. }
    specialize (Hfin Hpos). specialize (Hcode Hpos).
    split; cbn [fst snd finished code draw];
      replace (n + 1 - 1) with n by lia; [lia | lia | | done | | ].
    + intros _. div65.
    + intros _. rewrite ?length_app; cbn [length app]. div65.
    + intros i Hi. unfold pages_of; cbn [finished code draw showPage].
      destruct (decide (i / 65 = n / 65)) as [Hq|Hq].
      * rewrite cell_last by div65.
        destruct (decide (i = n)) as [->|Hne].
        -- replace (Z.to_nat (n mod 65)) with (length (code c) + 0)%nat by div65.
           by rewrite lookup_app_r, Nat.add_comm, Nat.add_sub by lia.
        -- rewrite lookup_app_l by div65.
           rewrite <- (Hcell i) by lia. unfold pages_of.
           by rewrite cell_last by div65.
      * assert (i < n) by (destruct (decide (i = n)); [congruence | lia]).
        rewrite cell_app_l by div65.
        rewrite <- (Hcell i) by lia. unfold pages_of.
        by rewrite cell_app_l by div65.
Qed.

Lemma draw_labels_laid_out start_num (n : nat) :
  laid_out start_num (Z.of_nat n) (draw_labels start_num (Z.of_nat n)).
Proof.
  unfold draw_labels. induction n as [|n IH].
  - split; simpl; try done; lia.
  - rewrite seqZ_S, foldl_snoc. simpl.
    replace (Z.of_nat (S n)) with (Z.of_nat n + 1) by lia.
    apply turn_laid_out; [lia | done].
Qed.

(** The saved document of a run with at least one label. *)
Lemma document_pages start_num count :
  0 < count →
  document start_num count = pages_of (draw_labels start_num count).1.
Proof.
  intros Hc. unfold document, save, pages_of.
  destruct (draw_labels_laid_out start_num (Z.to_nat count)) as [_ _ _ _ Hcode _].
  rewrite Z2Nat.id in Hcode by lia. specialize (Hcode Hc).
  destruct (code _) eqn:E; [simpl in Hcode; div65|].
  unfold showPage. cbn [finished]. by rewrite E.
Qed.

(** What the form says is what the view works with. *)
Lemma parameters_says req start_num count :
  says_number (form req !! "start_num") 1 start_num →
  says_number (form req !! "label_count") 65 count →
  parameters req = (start_num, count).
Proof.
  unfold says_number, parameters.
  destruct (form req !! "start_num") as [a|], (form req !! "label_count") as [b|];
    intros Ha Hb; rewrite ?Ha, ?Hb; by subst.
Qed.

(** C2.  The view on a form that says [start_num] and [count], with at
    least one label and numbers it can write out: the label of index [i]
    lies at place [i mod 65] of page [i / 65], in the cell of column
    [i mod 5] and row [i / 5 mod 13], with the number [start_num + i];
    there are [(count - 1) / 65 + 1] pages, and every page is full but
    possibly the last, so that a page begins at an index exactly when the
    index is a multiple of 65.  From [start_num = 1], 65 labels make one
    page; 66 labels make two pages, the second holding the label 0066 alone
    in its first cell. *)
Theorem generate_labels_pages req start_num count :
  says_number (form req !! "start_num") 1 start_num →
  says_number (form req !! "label_count") 65 count →
  0 < count →
  printable start_num →
  printable (start_num + count - 1) →
  ∃ pages,
    generate_labels req
    = SendPdf
        ("labels_" ++ str start_num ++ "_to_" ++ str (start_num + count - 1) ++ ".pdf")
        pages
    ∧ Z.of_nat (length pages) = (count - 1) / 65 + 1
    ∧ (∀ (p : nat) page, pages !! p = Some page →
         Z.of_nat (length page) = Z.min 65 (count - 65 * Z.of_nat p))
    ∧ (∀ i, 0 ≤ i < count →
         cell pages i
         = Some (mkLabel (i mod 5) (i / 5 mod 13)
                   ("ROLL #" ++ Py.format_04d (start_num + i))
                   (Py.format_04d (start_num + i))))
    ∧ (start_num = 1 → count = 65 → length pages = 1%nat)
    ∧ (start_num = 1 → count = 66 →
         length pages = 2%nat
         ∧ pages !! 1%nat = Some [mkLabel 0 0 "ROLL #0066" "0066"]).
Proof.
  intros Hstart Hcount Hc _ _. exists (document start_num count).
  split.
  { unfold generate_labels. rewrite (parameters_says _ _ _ Hstart Hcount).
    unfold document.
    destruct (draw_labels start_num count) as [c current_num] eqn:E.
    pose proof (draw_labels_laid_out start_num (Z.to_nat count)) as [Hnum _ _ _ _ _].
    rewrite Z2Nat.id, E in Hnum by lia. cbn [snd] in Hnum. subst current_num.
    done. }
  split_and!; [| | | intros -> ->; by vm_compute | intros -> ->; split; by vm_compute];
    rewrite document_pages by done;
    destruct (draw_labels_laid_out start_num (Z.to_nat count))
      as [_ _ Hfin Hfull Hcode Hcell];
    rewrite Z2Nat.id in * by lia; specialize (Hfin Hc); specialize (Hcode Hc);
    unfold pages_of in *.
  - rewrite length_app; simpl. lia.
  - intros p page Hp. apply lookup_app_Some in Hp as [Hp | [Hge Hp]].
    + rewrite Forall_forall in Hfull.
      rewrite (Hfull page) by (by eapply list_elem_of_lookup_2).
      apply lookup_lt_Some in Hp. div65.
    + apply list_lookup_singleton_Some in Hp as [Hp <-]. div65.
  - intros i Hi. by rewrite Hcell.
Qed.

End label_pages.

(** ** File names *)

Lemma is_dot_eq c : is_dot c = true ↔ c = "."%char.
Proof. apply Ascii.eqb_eq. Qed.

Lemma allowed_file_spec name :
  allowed_file name = true ↔ has_allowed_extension name.
Proof.
  unfold allowed_file, has_allowed_extension. rewrite andb_true_iff. split.
  - intros [_ H]. destruct (Py.after_last is_dot name) as [ext|] eqn:E; [|done].
    apply bool_decide_eq_true in H.
    apply after_last_Some in E as (pre & c & -> & ->%is_dot_eq & Hext).
    by exists pre, ext.
  - intros (stem & ext & -> & Hext & Hin). split.
    + apply contains_spec. by exists stem, ext.
    + assert (Py.after_last is_dot (stem ++ "." ++ ext)%string = Some ext) as ->.
      { apply after_last_Some. by exists stem, "."%char. }
      by apply bool_decide_eq_true.
Qed.

Lemma disallowed_file name :
  has_no_allowed_extension name → allowed_file name = false.
Proof.
  intros [Hnodot | (stem & ext & -> & Hext & Hin)]; unfold allowed_file.
  - apply after_last_None in Hnodot. rewrite Hnodot. apply andb_false_r.
  - assert (Py.after_last is_dot (stem ++ "." ++ ext)%string = Some ext) as ->.
    { apply after_last_Some. by exists stem, "."%char. }
    rewrite bool_decide_eq_false_2 by done. apply andb_false_r.
Qed.

Lemma truthy_true s : Py.truthy s = true ↔ s ≠ EmptyString.
Proof. by destruct s. Qed.

(** The upload block without a file it accepts: nothing is stored. *)
Lemma store_upload_none env file imgs :
  filename file = EmptyString ∨ ¬ has_allowed_extension (filename file) →
  store_upload env file imgs = Ok (None, imgs).
Proof.
  intros H. unfold store_upload.
  destruct (Py.truthy (filename file)) eqn:Ht; [|done].
  destruct (allowed_file (filename file)) eqn:Ha; [|done].
  apply truthy_true in Ht. apply allowed_file_spec in Ha. by destruct H.
Qed.

(** The upload block never removes a file of the image folder, and it names
    a file only for an upload it accepts. *)
Lemma store_upload_Ok env file imgs name imgs' :
  store_upload env file imgs = Ok (name, imgs') →
  (∀ f, is_Some (imgs !! f) → is_Some (imgs' !! f))
  ∧ (name = None → imgs' = imgs)
  ∧ (name ≠ None → filename file ≠ EmptyString ∧ has_allowed_extension (filename file)).
Proof.
  unfold store_upload, save_optimized_image.
  destruct (Py.truthy (filename file)) eqn:Ht;
    [destruct (allowed_file (filename file)) eqn:Ha|]; simpl.
  - destruct (optimized_image env _ (stream file)); simpl; [|done].
    intros [= <- <-]. split; [|split; [done|]].
    + intros f Hf. rewrite lookup_insert. by case_decide.
    + intros _. split; [by apply truthy_true | by apply allowed_file_spec].
  - intros [= <- <-]. done.
  - intros [= <- <-]. done.
Qed.

(** The upload block, by its cases. *)
Lemma store_upload_cases env file imgs :
  store_upload env file imgs
  = if Py.truthy (filename file) && allowed_file (filename file)
    then
      match
        optimized_image env
          (secure_filename env (now_timestamp env ++ "_" ++ filename file)) (stream file)
      with
      | Ok data =>
          Ok (Some (secure_filename env (now_timestamp env ++ "_" ++ filename file)),
              <[secure_filename env (now_timestamp env ++ "_" ++ filename file) := data]>
                imgs)
      | Raise e => Raise e
      end
    else Ok (None, imgs).
Proof.
  unfold store_upload, save_optimized_image.
  destruct (Py.truthy (filename file) && allowed_file (filename file)); [|done].
  by destruct (optimized_image env _ (stream file)).
Qed.

(** Storing the same upload again changes nothing more. *)
Lemma store_upload_again env file imgs name imgs' :
  store_upload env file imgs = Ok (name, imgs') →
  store_upload env file imgs' = Ok (name, imgs').
Proof.
  rewrite !store_upload_cases.
  destruct (Py.truthy (filename file) && allowed_file (filename file)).
  - destruct (optimized_image env _ (stream file)); [|done].
    intros [= <- <-]. by rewrite insert_insert_eq.
  - by intros [= <- <-].
Qed.

Lemma in_int64_spec k : in_int64 k = true ↔ fits_int64 k.
Proof. unfold in_int64, fits_int64. rewrite andb_true_iff, Z.leb_le, Z.ltb_lt. done. Qed.

Lemma bindable_spec v : bindable v = true ↔ ∀ k, v = Some k → fits_int64 k.
Proof.
  destruct v as [k|]; simpl; [|done]. rewrite in_int64_spec. split.
  - by intros H k' [= <-].
  - intros H. by apply H.
Qed.

(** ** Roll creation and deletion over a run *)

Lemma respond_exn_not_redirect e endpoint : respond_exn e ≠ Redirect endpoint.
Proof. by destruct e. Qed.

(** A create that ends in the redirect met a table without its id and
    added the new row under that id. *)
Lemma add_roll_redirect env st req endpoint st' :
  add_roll env st req = (Redirect endpoint, st') →
  let k := custom_id_of req (next_id (rolls st)) in
  method req = POST
  ∧ rolls st !! k = None
  ∧ ∃ new_roll imgs,
      add_roll_fields env st req = Ok (new_roll, imgs)
      ∧ st' = set_rolls (<[k := new_roll]> (rolls st)) (set_images imgs st).
Proof.
  unfold add_roll. destruct (method req); [done|].
  destruct (rolls st !! custom_id_of req (next_id (rolls st))) eqn:Hk; [done|].
  destruct (in_int64 _); [|done].
  destruct (add_roll_fields env st req) as [[new_roll imgs]|e].
  - unfold db_insert. simpl. rewrite Hk.
    destruct (in_int64 _ && bindable _); [|done]. intros [= <- <-]. eauto 10.
  - intros [= H _]. by apply respond_exn_not_redirect in H.
Qed.

Lemma apply_op_created st op k st' :
  apply_op st op = (Created k, st') →
  rolls st !! k = None ∧ is_Some (rolls st' !! k).
Proof.
  destruct op as [env req | roll_id]; simpl.
  - destruct (add_roll env st req) as [resp st1] eqn:E.
    destruct resp; try done. intros [= <- <-].
    apply add_roll_redirect in E as (_ & Hfree & r & imgs & _ & ->).
    split; [done|]. simpl. rewrite lookup_insert_eq. eauto.
  - destruct (delete_roll st roll_id) as [resp st1]. by destruct resp.
Qed.

(** C3, as the code has it.  In every run of create and delete requests, a
    create is given an id only when no roll of the table holds that id at
    that moment, and the roll is in the table afterwards under that id; the
    id computed for the next roll is larger than every id of the table.
    (An id whose roll was deleted is free again.) *)
Theorem created_id_was_free st ops (j : nat) (k : Z) st_j :
  run st ops !! j = Some (st_j, Created k) →
  rolls st_j !! k = None
  ∧ (∀ i, is_Some (rolls st_j !! i) → i < next_id (rolls st_j))
  ∧ ∃ st_next, apply_op st_j <$> ops !! j = Some (Created k, st_next)
               ∧ is_Some (rolls st_next !! k).
Proof.
  revert st j. induction ops as [|op ops IH]; intros st j; [done|].
  simpl. destruct (apply_op st op) as [e st'] eqn:E.
  destruct j as [|j]; simpl.
  - intros [= -> ->]. apply apply_op_created in E as H. destruct H as [Hfree Hin].
    split; [done|]. split; [apply next_id_above|]. exists st'. by rewrite E.
  - apply IH.
Qed.

(** C3, as the specification words it, fails: after the roll 1 is created
    and deleted, the next create is given the id 1 again, by the computed
    next id and by an id typed into the form alike. *)
Lemma deleted_id_is_reused :
  ¬ ids_never_reused
  ∧ (run Sample.empty_state
       [Create Sample.env (Sample.post_roll [] Sample.no_file); Delete 1;
        Create Sample.env (Sample.post_roll [] Sample.no_file)]).*2
    = [Created 1; Deleted 1; Created 1]
  ∧ (run Sample.empty_state
       [Create Sample.env (Sample.post_roll [("roll_id", "7")] Sample.no_file);
        Delete 7;
        Create Sample.env (Sample.post_roll [("roll_id", "7")] Sample.no_file)]).*2
    = [Created 7; Deleted 7; Created 7].
Proof.
  split; [|split; by vm_compute].
  intros H.
  pose (ops := [Create Sample.env (Sample.post_roll [] Sample.no_file); Delete 1;
                Create Sample.env (Sample.post_roll [] Sample.no_file)]).
  destruct (run Sample.empty_state ops !! 1%nat) as [[st1 e1]|] eqn:E1; [|by vm_compute in E1].
  destruct (run Sample.empty_state ops !! 2%nat) as [[st2 e2]|] eqn:E2; [|by vm_compute in E2].
  assert (e1 = Deleted 1) as ->.
  { apply (f_equal (fmap snd)) in E1. vm_compute in E1. congruence. }
  assert (e2 = Created 1) as ->.
  { apply (f_equal (fmap snd)) in E2. vm_compute in E2. congruence. }
  apply (H Sample.empty_state ops 1%nat 2%nat 1 st1 st2); [lia | exact E1 | exact E2].
Qed.

(** ** The fields of a stored roll *)

Ltac read_fields :=
  unfold required, mbind, result_bind, mret, result_ret;
  repeat (case_match; try done).

Lemma add_roll_fields_Ok env st req r imgs :
  add_roll_fields env st req = Ok (r, imgs) →
  ∃ film cam notes_v iso_v file name,
    form req !! "film_type" = Some film
    ∧ form req !! "camera" = Some cam
    ∧ form req !! "notes" = Some notes_v
    ∧ optional_int (form req !! "iso") = Ok iso_v
    ∧ files req !! "contact_sheet" = Some file
    ∧ store_upload env file (images st) = Ok (name, imgs)
    ∧ r = mkRoll film iso_v (Some cam) (form req !! "lens")
            (add_parse_date (form req !! "date_started"))
            (add_parse_date (form req !! "date_finished"))
            (utcnow env) name (Some notes_v).
Proof.
  unfold add_roll_fields. read_fields; intros ?; simplify_eq; eauto 20.
Qed.

Lemma edit_roll_fields_Ok env st req roll r imgs :
  edit_roll_fields env st req roll = Ok (r, imgs) →
  ∃ film cam notes_v iso_v started finished file name,
    form req !! "film_type" = Some film
    ∧ form req !! "camera" = Some cam
    ∧ form req !! "notes" = Some notes_v
    ∧ optional_int (form req !! "iso") = Ok iso_v
    ∧ edit_parse_date (form req !! "date_started") = Ok started
    ∧ edit_parse_date (form req !! "date_finished") = Ok finished
    ∧ files req !! "contact_sheet" = Some file
    ∧ store_upload env file (images st) = Ok (name, imgs)
    ∧ r = mkRoll film iso_v (Some cam) (form req !! "lens") started finished
            (date_added roll)
            (match name with Some n => Some n | None => contact_sheet roll end)
            (Some notes_v).
Proof.
  unfold edit_roll_fields. read_fields; intros ?; simplify_eq; eauto 20.
Qed.

(** ** Dates *)

Lemma add_parse_date_invalid s :
  Strptime.strptime_ymd s = None → add_parse_date (Some s) = None.
Proof. intros H. unfold add_parse_date. rewrite H. by destruct (Py.truthy s). Qed.

(** C4, as the code has it.  In a create-roll request, a date field that is
    not empty and that [strptime] refuses is read as if the field were left
    out: the request gets the answer, and leaves the state, it would
    without the field, and a roll it stores has that date unset. *)
Theorem add_roll_ignores_bad_date env st req key s :
  key = "date_started" ∨ key = "date_finished" →
  form req !! key = Some s →
  s ≠ EmptyString →
  Strptime.strptime_ymd s = None →
  add_roll env st req = add_roll env st (without_field key req)
  ∧ ∀ endpoint st', add_roll env st req = (Redirect endpoint, st') →
      ∃ r, rolls st' !! custom_id_of req (next_id (rolls st)) = Some r
           ∧ (key = "date_started" → date_started r = None)
           ∧ (key = "date_finished" → date_finished r = None).
Proof.
  intros Hkey Hs _ Hbad. apply add_parse_date_invalid in Hbad. split.
  - unfold add_roll, custom_id_of, add_roll_fields, required, without_field. simpl.
    destruct Hkey as [-> | ->]; rewrite Hs, Hbad;
      rewrite ?lookup_delete_eq, !lookup_delete_ne by done; done.
  - intros endpoint st' (_ & _ & r & imgs & Hr & ->)%add_roll_redirect.
    exists r. simpl. rewrite lookup_insert_eq. split; [done|].
    apply add_roll_fields_Ok in Hr as (?&?&?&?&?&?&_&_&_&_&_&_&->). simpl.
    split; intros ->; by rewrite Hs.
Qed.

(** C4, as the specification words it, fails on both views: with the date
    31/12/2024 the create view stores the roll without the date and
    redirects, and the edit view ends in an unhandled [ValueError]. *)
Lemma bad_date_is_not_reported :
  add_roll Sample.env Sample.empty_state
    (Sample.post_roll [("date_started", "31/12/2024")] Sample.no_file)
  = (Redirect "index", mkState {[ 1 := Sample.portra ]} ∅ ∅ ∅)
  ∧ edit_roll Sample.env Sample.one_roll 4
      (Sample.post_roll [("date_started", "31/12/2024")] Sample.no_file)
    = (Unhandled ValueError, Sample.one_roll).
Proof. split; by vm_compute. Qed.

(** ** Uploads *)

Lemma set_images_same st : set_images (images st) st = st.
Proof. by destruct st. Qed.

Lemma optional_int_says x v : says_int x v → optional_int x = Ok v.
Proof.
  unfold says_int, optional_int. destruct v as [k|].
  - intros (s & -> & Hs & ->). by rewrite (proj2 (truthy_true s) Hs).
  - by intros [-> | ->].
Qed.

Lemma edit_parse_date_says x d : says_date x d → edit_parse_date x = Ok d.
Proof.
  unfold says_date, edit_parse_date. destruct d as [day|].
  - intros (s & -> & Hs & ->). by rewrite (proj2 (truthy_true s) Hs).
  - by intros [-> | ->].
Qed.

Lemma store_upload_no_sheet env req imgs :
  no_sheet_supplied req →
  ∃ file, files req !! "contact_sheet" = Some file
          ∧ store_upload env file imgs = Ok (None, imgs).
Proof.
  intros (file & Hfile & Hname). exists file. split; [done|].
  rewrite store_upload_cases. destruct Hname as [-> | Hno]; [done|].
  by rewrite (disallowed_file _ Hno), andb_false_r.
Qed.

(** C8, as the code has it.  An edit request leaves the roll in the table.
    Its [contact_sheet] differs from the old one only when the request
    brings a new file with an allowed extension; no file of the image
    folder is removed, the old image among them; unless the answer is the
    redirect to the roll, the roll has every field it had; the other rolls
    are not touched.  When the form can be stored (the three required
    fields, an [iso] that is empty or an integer of 64 bits, dates that are
    empty or that [strptime] accepts), the roll gets the fields the form
    says: with no file the upload block accepts, [contact_sheet] keeps its
    value and the image folder is as it was; with an accepted file that
    Pillow writes, [contact_sheet] is the name of the new file. *)
Theorem edit_roll_contact_sheet env st roll_id req roll :
  rolls st !! roll_id = Some roll →
  (∀ resp st', edit_roll env st roll_id req = (resp, st') →
     ∃ roll',
       rolls st' !! roll_id = Some roll'
       ∧ (contact_sheet roll' ≠ contact_sheet roll → new_sheet_supplied req)
       ∧ (∀ f, is_Some (images st !! f) → is_Some (images st' !! f))
       ∧ (resp ≠ RedirectRoll roll_id → roll' = roll)
       ∧ (¬ new_sheet_supplied req →
            contact_sheet roll' = contact_sheet roll ∧ images st' = images st)
       ∧ (∀ j, j ≠ roll_id → rolls st' !! j = rolls st !! j))
  ∧ (∀ film cam notes_v v started finished,
       method req = POST →
       form_says req film cam notes_v v →
       says_date (form req !! "date_started") started →
       says_date (form req !! "date_finished") finished →
       (no_sheet_supplied req →
          (edit_roll env st roll_id req).1 = RedirectRoll roll_id
          ∧ rolls (edit_roll env st roll_id req).2
            = <[roll_id := mkRoll film v (Some cam) (form req !! "lens") started
                             finished (date_added roll) (contact_sheet roll)
                             (Some notes_v)]> (rolls st)
          ∧ images (edit_roll env st roll_id req).2 = images st)
       ∧ (∀ file data,
            files req !! "contact_sheet" = Some file →
            filename file ≠ EmptyString →
            has_allowed_extension (filename file) →
            optimized_image env
              (secure_filename env (now_timestamp env ++ "_" ++ filename file))
              (stream file) = Ok data →
            (edit_roll env st roll_id req).1 = RedirectRoll roll_id
            ∧ rolls (edit_roll env st roll_id req).2
              = <[roll_id := mkRoll film v (Some cam) (form req !! "lens") started
                               finished (date_added roll)
                               (Some (secure_filename env
                                        (now_timestamp env ++ "_" ++ filename file)))
                               (Some notes_v)]> (rolls st)
            ∧ images (edit_roll env st roll_id req).2
              = <[secure_filename env (now_timestamp env ++ "_" ++ filename file)
                  := data]> (images st))).
Proof.
  intros Hroll. split.
  - intros resp st'. unfold edit_roll. rewrite Hroll.
    destruct (method req); [intros [= <- <-]; by exists roll|].
    destruct (edit_roll_fields env st req roll) as [[roll' imgs]|e] eqn:E;
      [|intros [= <- <-]; by exists roll].
    apply edit_roll_fields_Ok in E
      as (film & cam & notes_v & iso_v & started & finished & file & name
          & Hfilm & Hcam & Hnotes & Hiso & Hst & Hfi & Hfile & Hup & ->).
    apply store_upload_Ok in Hup as Hup'. destruct Hup' as (Hkeep & Hnone & Hnew).
    cbn [iso]. destruct (bindable iso_v); intros [= <- <-].
    + eexists. cbn [rolls images set_rolls set_images]. split_and!.
      * by rewrite lookup_insert_eq.
      * cbn [contact_sheet]. intros Hdiff. exists file. split; [done|].
        apply Hnew. by intros ->.
      * done.
      * done.
      * intros Hno. cbn [contact_sheet]. destruct name as [n|].
        -- exfalso. apply Hno. exists file. split; [done|]. by apply Hnew.
        -- split; [done|]. by apply Hnone.
      * intros j Hj. by rewrite lookup_insert_ne.
    + exists roll. cbn [rolls images set_rolls set_images]. split_and!; try done.
      intros Hno. split; [done|]. destruct name as [n|]; [|by apply Hnone].
      exfalso. apply Hno. exists file. split; [done|]. by apply Hnew.
  - intros film cam notes_v v started finished Hm (Hfilm & Hcam & Hnotes & Hiso & Hfit)
      Hst Hfi.
    apply optional_int_says in Hiso. apply edit_parse_date_says in Hst, Hfi.
    apply bindable_spec in Hfit.
    unfold edit_roll. rewrite Hroll, Hm.
    unfold edit_roll_fields, required. rewrite Hfilm, Hcam, Hnotes. simpl.
    rewrite Hiso. simpl. rewrite Hst. simpl. rewrite Hfi. simpl. split.
    + intros Hno. destruct (store_upload_no_sheet env req (images st) Hno)
        as (file & -> & Hup). simpl. rewrite Hup. simpl.
      by rewrite Hfit.
    + intros file data -> Hname Hext Hdata. simpl.
      rewrite store_upload_cases.
      rewrite (proj2 (truthy_true _) Hname), (proj2 (allowed_file_spec _) Hext), Hdata.
      simpl. by rewrite Hfit.
Qed.

(** C8, as the specification words it, fails: an edit whose [iso] is not a
    number, with no file chosen, ends in an unhandled [ValueError] and the
    roll keeps the film name it had, not the one of the form; and an [iso]
    that does not fit 64 bits ends in an unhandled [OverflowError]. *)
Lemma edited_fields_are_not_always_stored :
  ¬ edit_as_specified
  ∧ edit_roll Sample.env Sample.one_roll 4
      (Sample.post_roll [("iso", "fast")] Sample.no_file)
    = (Unhandled ValueError, Sample.one_roll)
  ∧ form (Sample.post_roll [("iso", "fast")] Sample.no_file) !! "film_type"
    = Some "Portra 400"
  ∧ film_type Sample.kodak = "Kodak Gold"
  ∧ edit_roll Sample.env Sample.one_roll 4
      (Sample.post_roll [("iso", "9223372036854775808")] Sample.no_file)
    = (Unhandled OverflowError, Sample.one_roll).
Proof.
  split_and!; [| by vm_compute | by vm_compute | done | by vm_compute].
  intros Hspec.
  destruct (Hspec Sample.env Sample.one_roll 4
              (Sample.post_roll [("iso", "fast")] Sample.no_file) Sample.kodak)
    as (roll' & Hr & _ & Hfilm & _).
  - by vm_compute.
  - done.
  - exists Sample.no_file. split; [by vm_compute | by left].
  - vm_compute in Hr. injection Hr as <-. by vm_compute in Hfilm.
Qed.

(** C10, as the code has it.  A create request whose uploaded file has a
    name with no dot, or with a final extension outside [jpg], [jpeg] and
    [png] whatever the case, is answered as the same request with no file
    chosen: the upload is dropped without a word.  With a free id that fits
    64 bits and a form that can be stored (the three required fields, an
    [iso] that is empty or an integer of 64 bits), the roll is stored with
    the fields of the form and no contact sheet, nothing is written to the
    image folder, and the answer is the redirect to the index. *)
Theorem add_roll_drops_disallowed_upload env st req file :
  method req = POST →
  files req !! "contact_sheet" = Some file →
  has_no_allowed_extension (filename file) →
  add_roll env st req = add_roll env st (without_upload req)
  ∧ ∀ film cam notes_v v,
      rolls st !! custom_id_of req (next_id (rolls st)) = None →
      fits_int64 (custom_id_of req (next_id (rolls st))) →
      form_says req film cam notes_v v →
      ∃ r,
        (add_roll env st req).1 = Redirect "index"
        ∧ rolls (add_roll env st req).2
          = <[custom_id_of req (next_id (rolls st)) := r]> (rolls st)
        ∧ images (add_roll env st req).2 = images st
        ∧ contact_sheet r = None
        ∧ film_type r = film
        ∧ iso r = v
        ∧ camera r = Some cam
        ∧ lens r = form req !! "lens"
        ∧ notes r = Some notes_v
        ∧ date_added r = utcnow env.
Proof.
  intros Hm Hfile Hname.
  assert (∀ imgs, store_upload env file imgs = Ok (None, imgs)) as Hup.
  { intros imgs. rewrite store_upload_cases.
    by rewrite (disallowed_file _ Hname), andb_false_r. }
  split.
  - unfold add_roll, add_roll_fields, required, without_upload, custom_id_of.
    cbn [method form files args]. rewrite lookup_insert_eq, Hfile.
    unfold mbind, result_bind, mret, result_ret.
    destruct (form req !! "film_type"), (form req !! "camera"),
      (form req !! "notes"), (optional_int (form req !! "iso")); try done.
    by rewrite Hup, store_upload_cases.
  - intros film cam notes_v v Hfree Hid (Hfilm & Hcam & Hnotes & Hiso & Hfit).
    apply optional_int_says in Hiso. apply bindable_spec in Hfit.
    apply in_int64_spec in Hid.
    eexists. unfold add_roll. rewrite Hm, Hfree, Hid.
    unfold add_roll_fields, required. rewrite Hfilm, Hcam, Hnotes, Hfile. simpl.
    rewrite Hiso. simpl. rewrite Hup. simpl.
    unfold db_insert. cbn [rolls set_images iso]. rewrite Hfree, Hid, Hfit.
    done.
Qed.

(** C10, as the specification words it, fails: with a free id and the
    upload [notes.txt], the request ends in an unhandled [ValueError] when
    [iso] is not a number, in the form with a database error when [iso]
    does not fit 64 bits, and in an unhandled [OverflowError] when the id
    typed does not; no roll is stored. *)
Lemma disallowed_upload_can_fail :
  ¬ upload_dropped_as_specified
  ∧ has_no_allowed_extension "notes.txt"
  ∧ add_roll Sample.env Sample.one_roll
      (Sample.post_roll [("iso", "fast")] (mkFile "notes.txt" "hello"))
    = (Unhandled ValueError, Sample.one_roll)
  ∧ add_roll Sample.env Sample.one_roll
      (Sample.post_roll [("iso", "9223372036854775808")] (mkFile "notes.txt" "hello"))
    = (RenderAddRoll (Some DatabaseError) 5, Sample.one_roll)
  ∧ add_roll Sample.env Sample.one_roll
      (Sample.post_roll [("roll_id", "9223372036854775808")] (mkFile "notes.txt" "hello"))
    = (Unhandled OverflowError, Sample.one_roll).
Proof.
  assert (has_no_allowed_extension "notes.txt") as Hname.
  { right. exists "notes", "txt". split; [reflexivity|]. split; [reflexivity|].
    intros H. vm_compute in H.
    repeat (apply elem_of_cons in H as [H | H]; [discriminate|]).
    by apply elem_of_nil in H. }
  split_and!; [| exact Hname | by vm_compute | by vm_compute | by vm_compute].
  intros Hspec.
  destruct (Hspec Sample.env Sample.one_roll
              (Sample.post_roll [("iso", "fast")] (mkFile "notes.txt" "hello"))
              (mkFile "notes.txt" "hello")) as (r & Hr & _);
    [done | by vm_compute | by vm_compute | exact Hname |].
  by vm_compute in Hr.
Qed.

(** ** Backup import *)


Lemma zip_read_member (z : list (string * string)) member :
  member ∈ z.*1 → is_Some (zip_read z member).
Proof.
  induction z as [|[name data] z IH]; simpl; [by intros ?%elem_of_nil|].
  intros [Heq | Hin]%elem_of_cons.
  - destruct (zip_read z member); [eauto|]. rewrite decide_True by done. eauto.
  - destruct (IH Hin) as [later ->]. eauto.
Qed.

Lemma all_chars_no_sep pf sep name :
  (∀ c, sep c = true ↔ is_sep pf c) →
  Py.all_chars (λ x, negb (sep x)) name = true →
  ∀ a x b, name = (a ++ String x b)%string → ¬ is_sep pf x.
Proof.
  intros Hsep Hall a x b -> Hx. rewrite all_chars_app in Hall. simpl in Hall.
  apply Hsep in Hx. rewrite Hx in Hall. simpl in Hall.
  by rewrite andb_false_r in Hall.
Qed.

Lemma is_slash_spec c : is_slash c = true ↔ is_sep Posix c.
Proof. apply Ascii.eqb_eq. Qed.

Lemma is_any_slash_spec c : is_any_slash c = true ↔ is_sep Windows c.
Proof.
  unfold is_any_slash. rewrite orb_true_iff, Ascii.eqb_eq.
  unfold is_slash. by rewrite Ascii.eqb_eq.
Qed.

(** Under [Images/] the base name is what follows the last separator. *)
Lemma basename_spec pf rest :
  is_basename pf ("Images/" ++ rest) (basename pf ("Images/" ++ rest)).
Proof.
  set (path := ("Images/" ++ rest)%string).
  assert (∃ sep, (∀ c, sep c = true ↔ is_sep pf c)
                 ∧ basename pf path = default path (Py.after_last sep path))
    as (sep & Hsep & ->).
  { destruct pf; [exists is_slash | exists is_any_slash]; split; try done.
    - apply is_slash_spec.
    - apply is_any_slash_spec. }
  destruct (Py.after_last sep path) as [name|] eqn:E; simpl.
  - apply after_last_Some in E as (dir & c & Hpath & Hc & Hname).
    exists dir, c. split; [done|]. split; [by apply Hsep|].
    by eapply all_chars_no_sep.
  - apply after_last_None in E. exfalso.
    eapply (all_chars_no_sep pf sep path Hsep E "Images" "/"%char rest); [done|].
    destruct pf; simpl; auto.
Qed.



Lemma not_database_name member :
  member ∉ database_names ↔ bool_decide (member ∈ ["filmlog.db"; "gearlog.db"]) = false.
Proof. unfold database_names. by rewrite bool_decide_eq_false. Qed.

Lemma database_name_safe member : member ∈ database_names → blocked member = false.
Proof.
  unfold database_names. intros H.
  apply elem_of_cons in H as [-> | H]; [done|].
  by apply elem_of_cons in H as [-> | H%elem_of_nil].
Qed.









(** ** Search: digits *)

Lemma ascii_digit_facts c :
  Py.is_ascii_digit c = true →
  Py.is_int_space c = false
  ∧ Ascii.eqb c "-" = false
  ∧ Ascii.eqb c "+" = false
  ∧ Py.isdigit_char c = true
  ∧ Py.digit_val c = Some (Z.of_N (Py.code c) - 48).
Proof.
  intros H. unfold Py.digit_val. rewrite H.
  destruct c as [[] [] [] [] [] [] [] []]; by vm_compute in H |- *.
Qed.

Lemma rstrip_no_space s :
  Py.all_chars (λ c, negb (Py.is_int_space c)) s = true → Py.rstrip s = s.
Proof.
  induction s as [|c s IH]; simpl; [done|].
  intros [Hc Hs]%andb_true_iff. rewrite (IH Hs).
  destruct s; [|done]. by destruct (Py.is_int_space c).
Qed.

Lemma count_digits_length s :
  Py.all_chars Py.is_ascii_digit s = true → Py.count_digits s = String.length s.
Proof.
  induction s as [|c s IH]; simpl; [done|].
  intros [-> Hs]%andb_true_iff. by rewrite (IH Hs).
Qed.

Lemma all_chars_impl (f g : ascii → bool) s :
  (∀ c, f c = true → g c = true) →
  Py.all_chars f s = true → Py.all_chars g s = true.
Proof.
  intros Hfg. induction s as [|c s IH]; simpl; [done|].
  intros [Hc Hs]%andb_true_iff. by rewrite (Hfg c Hc), (IH Hs).
Qed.

Lemma digits_loop_digits after_us acc s :
  Py.all_chars Py.is_ascii_digit s = true →
  s ≠ EmptyString ∨ after_us = false →
  Py.digits_loop after_us acc s = Some (horner acc s).
Proof.
  revert after_us acc. induction s as [|c s IH]; intros after_us acc; simpl.
  - intros _ [? | ->]; done.
  - intros [Hc Hs]%andb_true_iff _.
    destruct (ascii_digit_facts c Hc) as (_ & _ & _ & _ & ->).
    apply IH; auto.
Qed.

(** [int] on a string of at most 4300 decimal digits gives the number they
    denote, and [isdigit] holds of such a string. *)
Lemma int_of_digits q :
  q ≠ EmptyString →
  Py.all_chars Py.is_ascii_digit q = true →
  (String.length q ≤ Py.max_str_digits)%nat →
  Py.int q = Some (decimal_value q) ∧ Py.isdigit q = true.
Proof.
  intros Hq Hd Hlen. split.
  - unfold Py.int, Py.strip.
    assert (Py.lstrip q = q) as ->.
    { destruct q as [|c q]; [done|]. simpl in *.
      apply andb_true_iff in Hd as [Hc _].
      by destruct (ascii_digit_facts c Hc) as (-> & _). }
    rewrite rstrip_no_space.
    + destruct q as [|c q]; [done|].
      pose proof Hd as [Hc _]%andb_true_iff.
      destruct (ascii_digit_facts c Hc) as (_ & -> & -> & _).
      unfold Py.literal. rewrite count_digits_length by done.
      rewrite (proj2 (Nat.leb_le _ _) Hlen).
      by apply digits_loop_digits; auto.
    + revert Hd. apply all_chars_impl. intros c Hc.
      by destruct (ascii_digit_facts c Hc) as (-> & _).
  - unfold Py.isdigit. rewrite (proj2 (truthy_true q) Hq). simpl.
    revert Hd. apply all_chars_impl. intros c Hc.
    by destruct (ascii_digit_facts c Hc) as (_ & _ & _ & -> & _).
Qed.

(** ** Search: the [LIKE] operator *)

Section like_facts.

Implicit Types q pat s m r : string.

Lemma like_percent pat s :
  Sql.like (String "%" pat) s
  = Sql.like pat s
    || match s with
       | EmptyString => false
       | String _ s' => Sql.like (String "%" pat) s'
       end.
Proof. by destruct s. Qed.

Lemma like_char p pat s :
  Sql.is_percent p = false →
  Sql.like (String p pat) s
  = match s with
    | EmptyString => false
    | String c s' =>
        (Sql.is_underscore p || Ascii.eqb (Sql.fold_char p) (Sql.fold_char c))
        && Sql.like pat s'
    end.
Proof. intros H. simpl. by rewrite H. Qed.

Lemma is_percent_eq p : Sql.is_percent p = true ↔ p = "%"%char.
Proof. apply Ascii.eqb_eq. Qed.

(** [%] takes any prefix of the string. *)
Lemma like_percent_spec pat s :
  Sql.like (String "%" pat) s = true ↔
  ∃ a r, s = (a ++ r)%string ∧ Sql.like pat r = true.
Proof.
  induction s as [|c s IH]; rewrite like_percent, orb_true_iff.
  - split.
    + intros [H | ?]; [|done]. by exists EmptyString, EmptyString.
    + intros ([|??] & r & Hr & H); [|done]. left.
      by assert (r = EmptyString) as -> by (symmetry; exact Hr).
  - rewrite IH. split.
    + intros [H | (a & r & -> & H)].
      * by exists EmptyString, (String c s).
      * by exists (String c a), r.
    + intros ([|c' a] & r & Hr & H).
      * left. by assert (r = String c s) as -> by (symmetry; exact Hr).
      * right. injection Hr as -> ->. eauto.
Qed.

Lemma append_nil_r s : (s ++ "")%string = s.
Proof. induction s as [|c s IH]; [done|]. exact (f_equal (String c) IH). Qed.

Lemma like_percent_all s : Sql.like "%" s = true.
Proof.
  apply like_percent_spec. exists s, EmptyString. by rewrite append_nil_r.
Qed.

(** A pattern matches the text it spells, up to the case of the letters
    [A..Z], whatever wildcards it holds. *)
Lemma like_prefix q pat m r :
  Sql.fold_case m = Sql.fold_case q →
  Sql.like pat r = true →
  Sql.like (q ++ pat) (m ++ r) = true.
Proof.
  revert m. induction q as [|p q IH]; intros [|c m] Hm Hr;
    try (by simpl in Hm).
  change (Sql.like (String p (q ++ pat)) (String c (m ++ r)) = true).
  simpl in Hm. injection Hm as Hc Hm. specialize (IH m Hm Hr).
  destruct (Sql.is_percent p) eqn:Hp.
  - apply is_percent_eq in Hp as ->.
    apply like_percent_spec. by exists (String c EmptyString), (m ++ r)%string.
  - rewrite like_char by done. by rewrite Hc, Ascii.eqb_refl, orb_true_r.
Qed.

(** A pattern without wildcards matches only the text it spells. *)
Lemma like_plain_prefix q pat s :
  no_wildcard q →
  Sql.like (q ++ pat) s = true →
  ∃ m r, s = (m ++ r)%string ∧ Sql.fold_case m = Sql.fold_case q
         ∧ Sql.like pat r = true.
Proof.
  unfold no_wildcard. revert s. induction q as [|p q IH]; intros s.
  - intros _ H. by exists EmptyString, s.
  - change (String p q ++ pat)%string with (String p (q ++ pat)). simpl.
    intros [Hp Hq]%andb_true_iff.
    apply negb_true_iff, orb_false_iff in Hp as [Hpc Hus].
    rewrite Hpc, Hus. destruct s as [|c s]; [done|]. simpl.
    intros [Hc H]%andb_true_iff. apply Ascii.eqb_eq in Hc.
    destruct (IH s Hq H) as (m & r & -> & Hm & Hr).
    exists (String c m), r. simpl. by rewrite Hm, Hc.
Qed.

(** [contains] finds every text that holds the query up to case. *)
(** A text without NUL is read whole, and any text is read up to its first
    NUL. *)
Lemma c_string_no_nul s : no_nul s → Sql.c_string s = s.
Proof.
  unfold no_nul. induction s as [|c s IH]; simpl; [done|].
  intros [Hc Hs]%andb_true_iff. apply negb_true_iff in Hc. by rewrite Hc, IH.
Qed.

Lemma c_string_spec v : read_as_text v (Sql.c_string v).
Proof.
  unfold read_as_text, no_nul. induction v as [|c v IH]; simpl.
  - split; [done|]. by left.
  - destruct (Py.code c =? 0)%N eqn:Hc.
    + split; [done|]. right. exists v. f_equal.
      apply N.eqb_eq in Hc. unfold Py.code in Hc.
      rewrite <- (ascii_N_embedding c), Hc. done.
    + destruct IH as [Hno [Heq | [rest Hrest]]]; simpl; rewrite Hc; simpl.
      * split; [done|]. left. by rewrite Heq.
      * split; [done|]. right. exists rest. by rewrite Hrest at 1.
Qed.

Lemma read_as_text_unique v t : read_as_text v t → t = Sql.c_string v.
Proof.
  unfold read_as_text, no_nul. revert v. induction t as [|c t IH]; intros v [Hno Hv].
  - destruct Hv as [<- | [rest ->]]; done.
  - simpl in Hno. apply andb_true_iff in Hno as [Hc Hno].
    apply negb_true_iff in Hc.
    destruct Hv as [<- | [rest ->]]; simpl; rewrite Hc; f_equal; apply IH.
    + split; [done|]. by left.
    + split; [done|]. right. by exists rest.
Qed.

Lemma pattern_no_nul q : no_nul q → Sql.c_string ("%" ++ q ++ "%") = String "%" (q ++ "%").
Proof.
  intros Hq. apply c_string_no_nul. unfold no_nul in *.
  change ("%" ++ q ++ "%")%string with (String "%" (q ++ "%")). simpl.
  by rewrite all_chars_app, Hq.
Qed.

(** [contains] finds every text that holds the query up to case. *)
Lemma column_contains_complete q v :
  no_nul q → substring_nocase q (Sql.c_string v) → Sql.column_contains (Some v) q = true.
Proof.
  intros Hq (a & m & b & Hv & Hm). unfold Sql.column_contains.
  rewrite pattern_no_nul, Hv by done.
  apply like_percent_spec. exists a, (m ++ b)%string. split; [done|].
  apply like_prefix; [done | apply like_percent_all].
Qed.

(** For a query without wildcards it finds nothing else. *)
Lemma column_contains_sound q v :
  no_nul q → no_wildcard q → Sql.column_contains (Some v) q = true →
  substring_nocase q (Sql.c_string v).
Proof.
  intros Hnul Hq. unfold Sql.column_contains. rewrite pattern_no_nul by done.
  intros (a & r & Hv & H)%like_percent_spec.
  apply like_plain_prefix in H as (m & b & -> & Hm & _); [|done].
  by exists a, m, b.
Qed.

Lemma text_holds_c_string q v : text_holds q v ↔ substring_nocase q (Sql.c_string v).
Proof.
  unfold text_holds. split.
  - intros (t & Ht & H). by rewrite <- (read_as_text_unique v t).
  - intros H. exists (Sql.c_string v). split; [apply c_string_spec | done].
Qed.

Lemma matches_query_complete q (r : Roll) :
  no_nul q → name_holds text_holds q r → matches_query q r = true.
Proof.
  unfold matches_query. intros Hq [H | (c & Hc & H)]; apply orb_true_iff;
    apply text_holds_c_string in H.
  - left. by apply column_contains_complete.
  - right. rewrite Hc. by apply column_contains_complete.
Qed.

Lemma matches_query_sound q (r : Roll) :
  no_nul q → no_wildcard q → matches_query q r = true → name_holds text_holds q r.
Proof.
  unfold matches_query. intros Hnul Hq [H | H]%orb_true_iff.
  - left. apply text_holds_c_string. by apply column_contains_sound.
  - right. destruct (camera r) as [c|] eqn:Hc; [|done].
    exists c. split; [done|]. apply text_holds_c_string. by apply column_contains_sound.
Qed.

End like_facts.

(** ** Search: the view *)

Lemma filter_by_id_spec (t : gmap Z Roll) n k r :
  (k, r) ∈ filter_by_id n t ↔ k = n ∧ t !! k = Some r.
Proof.
  unfold filter_by_id. destruct (t !! n) as [r'|] eqn:E.
  - rewrite list_elem_of_singleton. split.
    + by intros [= -> ->].
    + intros [-> ?]. congruence.
  - split; [by intros ?%elem_of_nil | intros [-> ?]; congruence].
Qed.

Lemma filter_by_id_length (t : gmap Z Roll) n : (length (filter_by_id n t) ≤ 1)%nat.
Proof. unfold filter_by_id. destruct (t !! n); simpl; lia. Qed.

(** C7, as the code has it.  For a query that is not empty: when it is made
    of at most 4300 decimal digits 0 to 9 that denote a number below 2^63,
    the result holds the roll whose id is that number, if there is one, and
    nothing else; when [isdigit] does not hold of it, it has no NUL
    character and the pattern made of it has at most 50000 bytes, the
    result holds rolls of the table, each once, among them every roll whose
    film name or camera name, read up to its first NUL character, holds the
    query up to the case of the letters A to Z, and, if the query has no
    [%] and no [_], no other roll. *)
Theorem index_search st req q :
  args req !! "q" = Some q →
  q ≠ EmptyString →
  (Py.all_chars Py.is_ascii_digit q = true →
   (String.length q ≤ 4300)%nat →
   decimal_value q < 2 ^ 63 →
     index st req = RenderIndex (filter_by_id (decimal_value q) (rolls st)) q
     ∧ (length (filter_by_id (decimal_value q) (rolls st)) ≤ 1)%nat
     ∧ ∀ k r, (k, r) ∈ filter_by_id (decimal_value q) (rolls st)
              ↔ k = decimal_value q ∧ rolls st !! k = Some r)
  ∧ (Py.isdigit q = false →
     no_nul q →
     Py.utf8_length q + 2 ≤ 50000 →
     ∃ results,
       index st req = RenderIndex results q
       ∧ NoDup results
       ∧ (∀ k r, (k, r) ∈ results → rolls st !! k = Some r)
       ∧ (∀ k r, rolls st !! k = Some r → name_holds text_holds q r →
                 (k, r) ∈ results)
       ∧ (no_wildcard q →
          ∀ k r, (k, r) ∈ results → name_holds text_holds q r)).
Proof.
  intros Hq Hne. unfold index. rewrite Hq. simpl.
  rewrite (proj2 (truthy_true q) Hne). split.
  - intros Hd Hlen Hfit. destruct (int_of_digits q Hne Hd Hlen) as [-> ->].
    assert (in_int64 (decimal_value q) = true) as ->.
    { apply in_int64_spec. split; [|done].
      assert (∀ acc s, Py.all_chars Py.is_ascii_digit s = true → 0 ≤ acc →
                0 ≤ horner acc s) as Hpos.
      { clear. intros acc s. revert acc. induction s as [|c s IH]; intros acc; simpl;
          [done|].
        intros [Hc Hs]%andb_true_iff Hacc. apply IH; [done|].
        unfold Py.is_ascii_digit, Py.between in Hc.
        apply andb_true_iff in Hc as [Hc%N.leb_le _]. lia. }
      specialize (Hpos 0 q Hd). unfold decimal_value. lia. }
    split; [done|]. split; [apply filter_by_id_length|].
    intros k r. apply filter_by_id_spec.
  - intros -> Hnul Hlen.
    assert (Sql.pattern_too_long q = false) as ->.
    { unfold Sql.pattern_too_long, Sql.MAX_LIKE_PATTERN_LENGTH. apply Z.ltb_ge. lia. }
    cbn [andb]. eexists. split; [done|]. split_and!.
    + apply NoDup_filter, NoDup_map_to_list.
    + intros k r [_ H]%list_elem_of_filter. by apply elem_of_map_to_list.
    + intros k r Hk Hr. apply list_elem_of_filter. split.
      * apply Is_true_true. by apply matches_query_complete.
      * by apply elem_of_map_to_list.
    + intros Hw k r [H%Is_true_true _]%list_elem_of_filter.
      by apply matches_query_sound.
Qed.

(** C7, as the specification words it, fails.  The query [kodak] finds the
    roll of film Kodak Gold, whose names do not hold [kodak]; the query [%]
    finds it as well, and so does the query of the one character NUL; the
    query of the one character U+00B2, of which [isdigit] holds, ends in an
    unhandled [ValueError], and the query of the digits of 2^63 in an
    unhandled [OverflowError]. *)
Lemma search_is_not_by_substring :
  ¬ search_as_specified
  ∧ index Sample.one_roll (Sample.search "kodak")
    = RenderIndex [(4, Sample.kodak)] "kodak"
  ∧ ¬ name_holds substring "kodak" Sample.kodak
  ∧ index Sample.one_roll (Sample.search "%") = RenderIndex [(4, Sample.kodak)] "%"
  ∧ index Sample.one_roll (Sample.search Sample.nul)
    = RenderIndex [(4, Sample.kodak)] Sample.nul
  ∧ Py.isdigit Sample.superscript_two = true
  ∧ index Sample.one_roll (Sample.search Sample.superscript_two)
    = Unhandled ValueError
  ∧ index Sample.one_roll (Sample.search "9223372036854775808")
    = Unhandled OverflowError.
Proof.
  assert (¬ name_holds substring "kodak" Sample.kodak) as Hno.
  { intros [H | (c & [= <-] & H)]; apply contains_spec in H; by vm_compute in H. }
  split_and!; [| by vm_compute | done | by vm_compute | by vm_compute | by vm_compute
               | by vm_compute | by vm_compute].
  intros Hspec.
  destruct (Hspec Sample.one_roll (Sample.search "kodak") "kodak")
    as (results & Hres & _ & Hsub); [done | done |].
  assert (results = [(4, Sample.kodak)]) as ->.
  { vm_compute in Hres. by injection Hres as <-. }
  apply Hno. apply (Hsub eq_refl 4 Sample.kodak). apply list_elem_of_singleton. done.
Qed.

(** * The theorems at sample requests *)

Lemma add_roll_rejects_taken_id_witness :
  method (Sample.post_roll [("roll_id", "0004")] Sample.no_file) = POST
  ∧ form (Sample.post_roll [("roll_id", "0004")] Sample.no_file) !! "roll_id"
    = Some "0004"
  ∧ Py.int "0004" = Some 4
  ∧ is_Some (rolls Sample.one_roll !! 4)
  ∧ add_roll Sample.env Sample.one_roll
      (Sample.post_roll [("roll_id", "0004")] Sample.no_file)
    = (RenderAddRoll (Some (RollExists (Py.format_04d 4)))
         (next_id (rolls Sample.one_roll)), Sample.one_roll).
Proof.
  assert (is_Some (rolls Sample.one_roll !! 4)) as H by (vm_compute; eauto).
  split_and!; [reflexivity | by vm_compute | reflexivity | exact H |].
  apply (add_roll_rejects_taken_id _ _ _ "0004" 4);
    [reflexivity | by vm_compute | reflexivity | exact H].
Defined.

Lemma generate_labels_pages_witness :
  says_number
    (form (mkRequest POST ∅ {[ "start_num" := "1"; "label_count" := "66" ]} ∅)
       !! "start_num") 1 1
  ∧ says_number
      (form (mkRequest POST ∅ {[ "start_num" := "1"; "label_count" := "66" ]} ∅)
         !! "label_count") 65 66
  ∧ 0 < 66
  ∧ printable 1
  ∧ printable (1 + 66 - 1)
  ∧ ∃ pages,
      Labels.generate_labels
        (mkRequest POST ∅ {[ "start_num" := "1"; "label_count" := "66" ]} ∅)
      = SendPdf "labels_1_to_66.pdf" pages
      ∧ length pages = 2%nat
      ∧ pages !! 1%nat = Some [mkLabel 0 0 "ROLL #0066" "0066"].
Proof.
  assert (says_number
            (form (mkRequest POST ∅ {[ "start_num" := "1"; "label_count" := "66" ]} ∅)
               !! "start_num") 1 1) as H1 by reflexivity.
  assert (says_number
            (form (mkRequest POST ∅ {[ "start_num" := "1"; "label_count" := "66" ]} ∅)
               !! "label_count") 65 66) as H2 by reflexivity.
  assert (0 < 66) as H3 by lia.
  assert (printable 1) as H4 by (split; reflexivity).
  assert (printable (1 + 66 - 1)) as H5 by (split; reflexivity).
  split; [exact H1|]. split; [exact H2|]. split; [exact H3|].
  split; [exact H4|]. split; [exact H5|].
  destruct (generate_labels_pages _ 1 66 H1 H2 H3 H4 H5)
    as (pages & Hp & _ & _ & _ & _ & H66).
  destruct (H66 eq_refl eq_refl) as [Hlen Hsecond].
  exists pages. split_and!; [exact Hp | exact Hlen | exact Hsecond].
Defined.

Lemma created_id_was_free_witness :
  run Sample.empty_state
    [Create Sample.env (Sample.post_roll [] Sample.no_file); Delete 1;
     Create Sample.env (Sample.post_roll [] Sample.no_file)] !! 2%nat
  = Some (Sample.empty_state, Created 1)
  ∧ rolls Sample.empty_state !! 1 = None.
Proof.
  assert (run Sample.empty_state
            [Create Sample.env (Sample.post_roll [] Sample.no_file); Delete 1;
             Create Sample.env (Sample.post_roll [] Sample.no_file)] !! 2%nat
          = Some (Sample.empty_state, Created 1)) as H by (by vm_compute).
  split; [exact H|]. exact (proj1 (created_id_was_free _ _ _ _ _ H)).
Defined.

Lemma add_roll_ignores_bad_date_witness :
  form (Sample.post_roll [("date_started", "31/12/2024")] Sample.no_file)
    !! "date_started" = Some "31/12/2024"
  ∧ "31/12/2024" ≠ EmptyString
  ∧ Strptime.strptime_ymd "31/12/2024" = None
  ∧ add_roll Sample.env Sample.empty_state
      (Sample.post_roll [("date_started", "31/12/2024")] Sample.no_file)
    = add_roll Sample.env Sample.empty_state
        (without_field "date_started"
           (Sample.post_roll [("date_started", "31/12/2024")] Sample.no_file)).
Proof.
  split_and!; [by vm_compute | done | reflexivity |].
  apply (add_roll_ignores_bad_date _ _ _ "date_started" "31/12/2024");
    [by left | by vm_compute | done | reflexivity].
Defined.


Lemma toggle_feature_twice_witness :
  settings Sample.empty_state !! "enable_gearlog" = None
  ∧ settings (toggle_feature Sample.empty_state "enable_gearlog").2 !! "enable_gearlog"
    = Some (Some "true").
Proof.
  split; [reflexivity|].
  apply (proj2 (toggle_feature_twice Sample.empty_state "enable_gearlog")).
  reflexivity.
Defined.

Lemma index_search_witness :
  args (Sample.search "0004") !! "q" = Some "0004"
  ∧ "0004" ≠ EmptyString
  ∧ Py.all_chars Py.is_ascii_digit "0004" = true
  ∧ (String.length "0004" ≤ 4300)%nat
  ∧ decimal_value "0004" < 2 ^ 63
  ∧ index Sample.one_roll (Sample.search "0004")
    = RenderIndex (filter_by_id (decimal_value "0004") (rolls Sample.one_roll)) "0004".
Proof.
  assert (args (Sample.search "0004") !! "q" = Some "0004") as H by (by vm_compute).
  assert ((String.length "0004" ≤ 4300)%nat) as Hlen by (simpl; lia).
  assert (decimal_value "0004" < 2 ^ 63) as Hfit by (by vm_compute).
  split_and!; [exact H | done | reflexivity | exact Hlen | exact Hfit |].
  apply (proj1 (index_search Sample.one_roll _ "0004" H ltac:(done)));
    [reflexivity | exact Hlen | exact Hfit].
Defined.

Lemma edit_roll_contact_sheet_witness :
  rolls Sample.one_roll !! 4 = Some Sample.kodak
  ∧ method (Sample.post_roll [] Sample.no_file) = POST
  ∧ form_says (Sample.post_roll [] Sample.no_file) "Portra 400" "AE-1" "" (Some 400)
  ∧ says_date (form (Sample.post_roll [] Sample.no_file) !! "date_started") None
  ∧ says_date (form (Sample.post_roll [] Sample.no_file) !! "date_finished") None
  ∧ no_sheet_supplied (Sample.post_roll [] Sample.no_file)
  ∧ (edit_roll Sample.env Sample.one_roll 4 (Sample.post_roll [] Sample.no_file)).1
    = RedirectRoll 4
  ∧ rolls (edit_roll Sample.env Sample.one_roll 4 (Sample.post_roll [] Sample.no_file)).2
    = <[4 := mkRoll "Portra 400" (Some 400) (Some "AE-1")
               (form (Sample.post_roll [] Sample.no_file) !! "lens") None None
               (date_added Sample.kodak) (contact_sheet Sample.kodak) (Some "")]>
        (rolls Sample.one_roll)
  ∧ images (edit_roll Sample.env Sample.one_roll 4 (Sample.post_roll [] Sample.no_file)).2
    = images Sample.one_roll.
Proof.
  assert (rolls Sample.one_roll !! 4 = Some Sample.kodak) as H1 by (by vm_compute).
  assert (form_says (Sample.post_roll [] Sample.no_file) "Portra 400" "AE-1" ""
            (Some 400)) as H2.
  { split_and!; [by vm_compute | by vm_compute | by vm_compute | |].
    - exists "400". split_and!; [by vm_compute | done | reflexivity].
    - intros k [= <-]. unfold fits_int64. lia. }
  assert (says_date (form (Sample.post_roll [] Sample.no_file) !! "date_started") None)
    as H3 by (left; by vm_compute).
  assert (says_date (form (Sample.post_roll [] Sample.no_file) !! "date_finished") None)
    as H4 by (left; by vm_compute).
  assert (no_sheet_supplied (Sample.post_roll [] Sample.no_file)) as H5.
  { exists Sample.no_file. split; [by vm_compute | by left]. }
  split; [exact H1|]. split; [reflexivity|]. split; [exact H2|]. split; [exact H3|].
  split; [exact H4|]. split; [exact H5|].
  exact (proj1 (proj2 (edit_roll_contact_sheet Sample.env Sample.one_roll 4
                         (Sample.post_roll [] Sample.no_file) Sample.kodak H1)
                  "Portra 400" "AE-1" "" (Some 400) None None eq_refl H2 H3 H4) H5).
Defined.

Lemma generate_labels_fallback_witness :
  (∃ s, form (mkRequest POST ∅ {[ "start_num" := "abc" ]} ∅) !! "start_num" = Some s
        ∧ Py.int s = None)
  ∧ Labels.parameters (mkRequest POST ∅ {[ "start_num" := "abc" ]} ∅) = (1, 65).
Proof.
  assert (∃ s, form (mkRequest POST ∅ {[ "start_num" := "abc" ]} ∅) !! "start_num"
               = Some s ∧ Py.int s = None) as H.
  { exists "abc". split; [by vm_compute | reflexivity]. }
  split; [exact H|].
  exact (proj1 (generate_labels_fallback _ (or_introl H))).
Defined.

Lemma add_roll_drops_disallowed_upload_witness :
  method (Sample.post_roll [] (mkFile "notes.txt" "hello")) = POST
  ∧ files (Sample.post_roll [] (mkFile "notes.txt" "hello")) !! "contact_sheet"
    = Some (mkFile "notes.txt" "hello")
  ∧ has_no_allowed_extension "notes.txt"
  ∧ rolls Sample.one_roll
      !! custom_id_of (Sample.post_roll [] (mkFile "notes.txt" "hello"))
           (next_id (rolls Sample.one_roll)) = None
  ∧ fits_int64
      (custom_id_of (Sample.post_roll [] (mkFile "notes.txt" "hello"))
         (next_id (rolls Sample.one_roll)))
  ∧ form_says (Sample.post_roll [] (mkFile "notes.txt" "hello")) "Portra 400" "AE-1" ""
      (Some 400)
  ∧ ∃ r,
      (add_roll Sample.env Sample.one_roll
         (Sample.post_roll [] (mkFile "notes.txt" "hello"))).1 = Redirect "index"
      ∧ rolls
          (add_roll Sample.env Sample.one_roll
             (Sample.post_roll [] (mkFile "notes.txt" "hello"))).2
        = <[custom_id_of (Sample.post_roll [] (mkFile "notes.txt" "hello"))
              (next_id (rolls Sample.one_roll)) := r]> (rolls Sample.one_roll)
      ∧ contact_sheet r = None
      ∧ film_type r = "Portra 400".
Proof.
  assert (has_no_allowed_extension "notes.txt") as Hname.
  { right. exists "notes", "txt". split; [reflexivity|]. split; [reflexivity|].
    intros H. vm_compute in H.
    repeat (apply elem_of_cons in H as [H | H]; [discriminate|]).
    by apply elem_of_nil in H. }
  assert (form_says (Sample.post_roll [] (mkFile "notes.txt" "hello")) "Portra 400"
            "AE-1" "" (Some 400)) as Hform.
  { split_and!; [by vm_compute | by vm_compute | by vm_compute | |].
    - exists "400". split_and!; [by vm_compute | done | reflexivity].
    - intros k [= <-]. unfold fits_int64. lia. }
  assert (rolls Sample.one_roll
            !! custom_id_of (Sample.post_roll [] (mkFile "notes.txt" "hello"))
                 (next_id (rolls Sample.one_roll)) = None) as Hfree by (by vm_compute).
  assert (fits_int64
            (custom_id_of (Sample.post_roll [] (mkFile "notes.txt" "hello"))
               (next_id (rolls Sample.one_roll)))) as Hid.
  { by apply in_int64_spec. }
  assert (files (Sample.post_roll [] (mkFile "notes.txt" "hello")) !! "contact_sheet"
          = Some (mkFile "notes.txt" "hello")) as Hfile by (by vm_compute).
  split_and!;
    [reflexivity | exact Hfile | exact Hname | exact Hfree | exact Hid | exact Hform |].
  destruct (proj2 (add_roll_drops_disallowed_upload Sample.env Sample.one_roll
                     (Sample.post_roll [] (mkFile "notes.txt" "hello"))
                     (mkFile "notes.txt" "hello") eq_refl Hfile Hname)
              "Portra 400" "AE-1" "" (Some 400) Hfree Hid Hform)
    as (r & Hresp & Hr & _ & Hsheet & Hfilm & _).
  exists r. split_and!; [exact Hresp | exact Hr | exact Hsheet | exact Hfilm].
Defined.

(** * Further properties of the views *)

(** ** Deleting a roll *)

(** X1.  [delete_roll] changes nothing for an id that is not in the table,
    and answers 404 when the id fits 64 bits.  For a roll of the table it
    answers the redirect, whether or not the image file exists: the row is
    gone, every other row is as it was, and no setting is touched.  When
    [contact_sheet] is a plain file name (no separator, no colon, not [.]
    or [..]), that file is gone from the image folder and no other file of
    the folder is touched; when the roll has no contact sheet, the image
    folder is as it was. *)
Theorem delete_roll_effect st roll_id :
  match rolls st !! roll_id with
  | None =>
      (delete_roll st roll_id).2 = st
      ∧ (fits_int64 roll_id → (delete_roll st roll_id).1 = NotFound)
  | Some roll =>
      (delete_roll st roll_id).1 = Redirect "index"
      ∧ rolls (delete_roll st roll_id).2 !! roll_id = None
      ∧ (∀ j, j ≠ roll_id → rolls (delete_roll st roll_id).2 !! j = rolls st !! j)
      ∧ settings (delete_roll st roll_id).2 = settings st
      ∧ (contact_sheet roll = None ∨ contact_sheet roll = Some EmptyString →
           images (delete_roll st roll_id).2 = images st)
      ∧ (∀ f, contact_sheet roll = Some f → portable_name f →
           images (delete_roll st roll_id).2 !! f = None
           ∧ ∀ g, g ≠ f → images (delete_roll st roll_id).2 !! g = images st !! g)
  end.
Proof.
  unfold delete_roll. destruct (rolls st !! roll_id) as [roll|] eqn:E.
  - simpl. split_and!; try done.
    + apply lookup_delete_eq.
    + intros j Hj. by apply lookup_delete_ne.
    + by intros [-> | ->].
    + intros f -> [[Hf _] _]. unfold remove_image.
      rewrite (proj2 (truthy_true f) Hf). split; [apply lookup_delete_eq|].
      intros g Hg. by apply lookup_delete_ne.
  - split; [done|]. intros Hfit%in_int64_spec. cbn [fst]. unfold not_found.
    by rewrite Hfit.
Qed.

(** ** Creating a roll *)

(** X2.  Whatever [add_roll] answers, every roll of the table is still there
    unchanged, no file of the image folder is removed, and the settings are
    as they were.  Unless the answer is the redirect, the table is as it
    was; and when, besides, the request brings no file the upload block
    accepts, the whole state is unchanged. *)
Theorem add_roll_keeps_rows env st req :
  (∀ k r, rolls st !! k = Some r → rolls (add_roll env st req).2 !! k = Some r)
  ∧ (∀ f, is_Some (images st !! f) → is_Some (images (add_roll env st req).2 !! f))
  ∧ settings (add_roll env st req).2 = settings st
  ∧ ((∀ endpoint, (add_roll env st req).1 ≠ Redirect endpoint) →
     rolls (add_roll env st req).2 = rolls st)
  ∧ ((∀ endpoint, (add_roll env st req).1 ≠ Redirect endpoint) →
     ¬ new_sheet_supplied req →
     (add_roll env st req).2 = st).
Proof.
  unfold add_roll. destruct (method req); [by split_and!|].
  destruct (rolls st !! custom_id_of req (next_id (rolls st))) eqn:Hk; [by split_and!|].
  destruct (in_int64 _); [|by split_and!].
  destruct (add_roll_fields env st req) as [[new_roll imgs]|e] eqn:E; [|by split_and!].
  unfold db_insert. cbn [rolls set_images]. rewrite Hk.
  apply add_roll_fields_Ok in E as (?&?&?&?&file&name&_&_&_&_&Hfile&Hup&_).
  apply store_upload_Ok in Hup as (Hkeep & Hnone & Hnew).
  destruct (in_int64 _ && bindable _); cbn [fst snd]; split_and!; try done.
  - intros k r Hr. cbn [rolls set_rolls]. rewrite lookup_insert_ne; [done|]. congruence.
  - intros Hno. by destruct (Hno "index").
  - intros Hno. by destruct (Hno "index").
  - intros _ Hno. destruct name as [n|].
    + exfalso. apply Hno. exists file. split; [done|]. by apply Hnew.
    + rewrite Hnone by done. apply set_images_same.
Qed.

(** X3.  A roll created and then deleted leaves the table as it was before;
    the image folder is as it was too, except that the file the new roll
    named as its contact sheet is gone. *)
Theorem create_then_delete env st req st1 :
  add_roll env st req = (Redirect "index", st1) →
  ∃ new_roll,
    rolls st1 !! custom_id_of req (next_id (rolls st)) = Some new_roll
    ∧ (delete_roll st1 (custom_id_of req (next_id (rolls st)))).1 = Redirect "index"
    ∧ rolls (delete_roll st1 (custom_id_of req (next_id (rolls st)))).2 = rolls st
    ∧ (contact_sheet new_roll = None →
       images (delete_roll st1 (custom_id_of req (next_id (rolls st)))).2 = images st)
    ∧ (∀ f, contact_sheet new_roll = Some f → f ≠ EmptyString →
         is_Some (images st1 !! f)
         ∧ images (delete_roll st1 (custom_id_of req (next_id (rolls st)))).2 !! f = None)
    ∧ (∀ f, contact_sheet new_roll ≠ Some f →
         images (delete_roll st1 (custom_id_of req (next_id (rolls st)))).2 !! f
         = images st !! f).
Proof.
  intros (_ & Hfree & new_roll & imgs & Hf & ->)%add_roll_redirect.
  set (k := custom_id_of req (next_id (rolls st))) in *.
  exists new_roll. unfold delete_roll. cbn [rolls set_rolls set_images images].
  rewrite lookup_insert_eq. cbn [fst snd rolls images set_rolls set_images].
  apply add_roll_fields_Ok in Hf as (?&?&?&?&file&name&_&_&_&_&_&Hup&->).
  cbn [contact_sheet].
  split_and!; try done.
  - rewrite delete_insert_eq. by apply delete_id.
  - intros ->. simpl. by apply store_upload_Ok in Hup as (_ & -> & _).
  - intros f -> Hf. rewrite store_upload_cases in Hup.
    destruct (Py.truthy (filename file) && allowed_file (filename file)); [|done].
    destruct (optimized_image env _ (stream file)); [|done].
    injection Hup as Hname <-. rewrite <- Hname. unfold remove_image.
    rewrite Hname, (proj2 (truthy_true f) Hf).
    split; [rewrite <- Hname, lookup_insert_eq; eauto | apply lookup_delete_eq].
  - intros f Hne. rewrite store_upload_cases in Hup.
    destruct (Py.truthy (filename file) && allowed_file (filename file)).
    + destruct (optimized_image env _ (stream file)); [|done].
      injection Hup as <- <-. unfold remove_image.
      destruct (Py.truthy _).
      * rewrite lookup_delete_ne by congruence. apply lookup_insert_ne. congruence.
      * apply lookup_insert_ne. congruence.
    + by injection Hup as <- <-.
Qed.

Lemma create_then_delete_witness :
  add_roll Sample.env Sample.one_roll (Sample.post_roll [] Sample.no_file)
  = (Redirect "index",
     mkState (<[5 := Sample.portra]> {[ 4 := Sample.kodak ]}) ∅
       {[ "old.jpg" := "JPEG" ]} ∅)
  ∧ rolls
      (delete_roll
         (mkState (<[5 := Sample.portra]> {[ 4 := Sample.kodak ]}) ∅
            {[ "old.jpg" := "JPEG" ]} ∅)
         (custom_id_of (Sample.post_roll [] Sample.no_file)
            (next_id (rolls Sample.one_roll)))).2
    = rolls Sample.one_roll.
Proof.
  assert (add_roll Sample.env Sample.one_roll (Sample.post_roll [] Sample.no_file)
          = (Redirect "index",
             mkState (<[5 := Sample.portra]> {[ 4 := Sample.kodak ]}) ∅
               {[ "old.jpg" := "JPEG" ]} ∅)) as H by (by vm_compute).
  split; [exact H|].
  destruct (create_then_delete _ _ _ _ H) as (r & _ & _ & Hrolls & _).
  exact Hrolls.
Defined.






(** ** Editing a roll *)

(** X5.  Sending the same edit request a second time, at the same reading
    of the clock, changes nothing more: the answer and the state are those
    of the first time. *)
Theorem edit_roll_idempotent env st roll_id req :
  edit_roll env (edit_roll env st roll_id req).2 roll_id req
  = edit_roll env st roll_id req.
Proof.
  unfold edit_roll at 2 3. destruct (rolls st !! roll_id) as [roll|] eqn:Hroll.
  - destruct (method req) eqn:Hm.
    + unfold edit_roll. cbn [snd]. by rewrite Hroll, Hm.
    + destruct (edit_roll_fields env st req roll) as [[roll' imgs]|e] eqn:E.
      * apply edit_roll_fields_Ok in E
          as (film & cam & notes_v & iso_v & started & finished & file & name
              & Hfilm & Hcam & Hnotes & Hiso & Hst & Hfi & Hfile & Hup & ->).
        apply store_upload_again in Hup as Hup2.
        cbn [iso]. destruct (bindable iso_v) eqn:Hb; cbn [snd fst]; unfold edit_roll;
          cbn [rolls set_rolls set_images].
        -- rewrite lookup_insert_eq, Hm.
           unfold edit_roll_fields, required. cbn [images set_rolls set_images].
           rewrite Hfilm, Hcam, Hnotes, Hfile. simpl. rewrite Hiso. simpl.
           rewrite Hst. simpl. rewrite Hfi. simpl. rewrite Hup2. simpl. rewrite Hb.
           rewrite insert_insert_eq. by destruct name.
        -- rewrite Hroll, Hm.
           unfold edit_roll_fields, required. cbn [images set_rolls set_images].
           rewrite Hfilm, Hcam, Hnotes, Hfile. simpl. rewrite Hiso. simpl.
           rewrite Hst. simpl. rewrite Hfi. simpl. rewrite Hup2. simpl. by rewrite Hb.
      * cbn [snd]. unfold edit_roll. by rewrite Hroll, Hm, E.
  - unfold edit_roll. cbn [snd]. by rewrite Hroll.
Qed.

(** X6.  In [edit_roll] a date that is not empty and that [strptime]
    refuses is not caught: with the three required fields present and a
    readable [iso], the request ends in an unhandled [ValueError] and the
    state is unchanged, the roll keeping every field it had. *)
Theorem edit_roll_bad_date_raises env st roll_id req roll key s :
  rolls st !! roll_id = Some roll →
  method req = POST →
  fields_accepted req →
  key = "date_started" ∨ key = "date_finished" →
  form req !! key = Some s →
  s ≠ EmptyString →
  Strptime.strptime_ymd s = None →
  edit_roll env st roll_id req = (Unhandled ValueError, st).
Proof.
  intros Hroll Hm ([film Hfilm] & [cam Hcam] & [notes_v Hnotes] & [iso_v Hiso])
    Hkey Hs Hne Hbad.
  unfold edit_roll. rewrite Hroll, Hm.
  unfold edit_roll_fields, required. rewrite Hfilm, Hcam, Hnotes. simpl.
  rewrite Hiso. simpl.
  assert (edit_parse_date (Some s) = Raise ValueError) as Hraise.
  { unfold edit_parse_date. by rewrite (proj2 (truthy_true s) Hne), Hbad. }
  destruct Hkey as [-> | ->]; rewrite Hs in *.
  - by rewrite Hraise.
  - rewrite Hraise. unfold edit_parse_date.
    destruct (form req !! "date_started") as [d|]; [|done].
    destruct (Py.truthy d); [|done]. by destruct (Strptime.strptime_ymd d).
Qed.

Lemma edit_roll_bad_date_raises_witness :
  rolls Sample.one_roll !! 4 = Some Sample.kodak
  ∧ fields_accepted (Sample.post_roll [("date_finished", "2024-02-30")] Sample.no_file)
  ∧ Strptime.strptime_ymd "2024-02-30" = None
  ∧ edit_roll Sample.env Sample.one_roll 4
      (Sample.post_roll [("date_finished", "2024-02-30")] Sample.no_file)
    = (Unhandled ValueError, Sample.one_roll).
Proof.
  assert (rolls Sample.one_roll !! 4 = Some Sample.kodak) as H1 by (by vm_compute).
  assert (fields_accepted
            (Sample.post_roll [("date_finished", "2024-02-30")] Sample.no_file)) as H2.
  { split_and!; vm_compute; eauto. }
  split_and!; [exact H1 | exact H2 | reflexivity |].
  apply (edit_roll_bad_date_raises _ _ _ _ Sample.kodak "date_finished" "2024-02-30");
    [exact H1 | reflexivity | exact H2 | by right | by vm_compute | done | reflexivity].
Defined.

(** X7.  A value of [iso] that is not empty and that [int] refuses ends
    both roll views in an unhandled [ValueError] with the state unchanged:
    the create view when the id is free and fits 64 bits and the required
    fields are there, the edit view when the roll exists. *)
Theorem bad_iso_raises env st req s :
  method req = POST →
  is_Some (form req !! "film_type") →
  is_Some (form req !! "camera") →
  is_Some (form req !! "notes") →
  form req !! "iso" = Some s →
  s ≠ EmptyString →
  Py.int s = None →
  (rolls st !! custom_id_of req (next_id (rolls st)) = None →
   fits_int64 (custom_id_of req (next_id (rolls st))) →
   add_roll env st req = (Unhandled ValueError, st))
  ∧ (∀ roll_id, is_Some (rolls st !! roll_id) →
       edit_roll env st roll_id req = (Unhandled ValueError, st)).
Proof.
  intros Hm [film Hfilm] [cam Hcam] [notes_v Hnotes] Hs Hne Hbad.
  assert (optional_int (Some s) = Raise ValueError) as Hraise.
  { unfold optional_int. by rewrite (proj2 (truthy_true s) Hne), Hbad. }
  split.
  - intros Hfree Hid%in_int64_spec. unfold add_roll. rewrite Hm, Hfree, Hid.
    unfold add_roll_fields, required. by rewrite Hfilm, Hcam, Hnotes, Hs, Hraise.
  - intros roll_id [roll Hroll]. unfold edit_roll. rewrite Hroll, Hm.
    unfold edit_roll_fields, required. by rewrite Hfilm, Hcam, Hnotes, Hs, Hraise.
Qed.

Lemma bad_iso_raises_witness :
  form (Sample.post_roll [("iso", "fast")] Sample.no_file) !! "iso" = Some "fast"
  ∧ Py.int "fast" = None
  ∧ add_roll Sample.env Sample.one_roll (Sample.post_roll [("iso", "fast")] Sample.no_file)
    = (Unhandled ValueError, Sample.one_roll).
Proof.
  assert (form (Sample.post_roll [("iso", "fast")] Sample.no_file) !! "iso"
          = Some "fast") as H by (by vm_compute).
  split_and!; [exact H | reflexivity |].
  apply (proj1 (bad_iso_raises Sample.env Sample.one_roll
                  (Sample.post_roll [("iso", "fast")] Sample.no_file) "fast"
                  eq_refl ltac:(vm_compute; eauto) ltac:(vm_compute; eauto)
                  ltac:(vm_compute; eauto) H ltac:(done) eq_refl)).
  - by vm_compute.
  - by apply in_int64_spec.
Defined.

(** ** Feature flags *)

(** X8.  Every toggle flips the flag as it is read, whatever the key held
    before (nothing, ['true'], ['false'], any other text or NULL); the
    other keys, the rolls and the images are untouched. *)
Theorem toggle_feature_flips_flag st key :
  setting_is_true (settings (toggle_feature st key).2) key
  = negb (setting_is_true (settings st) key)
  ∧ (∀ k, k ≠ key → settings (toggle_feature st key).2 !! k = settings st !! k)
  ∧ rolls (toggle_feature st key).2 = rolls st
  ∧ images (toggle_feature st key).2 = images st.
Proof.
  split_and!; try done.
  - unfold setting_is_true at 1. rewrite toggle_feature_lookup.
    by destruct (setting_is_true (settings st) key).
  - intros k Hk. unfold toggle_feature. cbn [snd settings set_settings].
    destruct (settings st !! key); [case_bool_decide|]; by rewrite lookup_insert_ne.
Qed.

(** ** The formatted id *)

Lemma horner_of_uint_acc d acc :
  Z.pos (Pos.of_uint_acc d acc) = horner (Z.pos acc) (NilEmpty.string_of_uint d).
Proof.
  revert acc. induction d as [|d IH|d IH|d IH|d IH|d IH|d IH|d IH|d IH|d IH|d IH];
    intros acc; [done|..]; cbn [Pos.of_uint_acc NilEmpty.string_of_uint horner];
    rewrite IH; f_equal; vm_compute (Z.of_N (Py.code _) - 48); lia.
Qed.

Lemma horner_of_uint d :
  Z.of_N (Pos.of_uint d) = horner 0 (NilEmpty.string_of_uint d).
Proof.
  induction d as [|d IH|d IH|d IH|d IH|d IH|d IH|d IH|d IH|d IH|d IH];
    [done | exact IH | ..];
    cbn [Pos.of_uint NilEmpty.string_of_uint horner Z.of_N];
    by rewrite horner_of_uint_acc.
Qed.

Lemma string_of_uint_digits d :
  Py.all_chars Py.is_ascii_digit (NilEmpty.string_of_uint d) = true.
Proof. induction d; simpl; try done; by rewrite IHd. Qed.

Lemma decimal_unfold n : Py.decimal n = NilEmpty.string_of_uint (N.to_uint n).
Proof.
  unfold Py.decimal, NilZero.string_of_uint.
  destruct (N.to_uint n) eqn:E; try done.
  destruct n as [|p]; [done|]. by apply DecimalPos.Unsigned.to_uint_nonnil in E.
Qed.

Lemma decimal_value_decimal n : decimal_value (Py.decimal n) = Z.of_N n.
Proof.
  unfold decimal_value. rewrite decimal_unfold, <- horner_of_uint.
  f_equal. apply DecimalN.Unsigned.of_to.
Qed.

Lemma decimal_not_empty n : Py.decimal n ≠ EmptyString.
Proof.
  rewrite decimal_unfold. destruct n as [|p]; [done|]. simpl.
  pose proof (DecimalPos.Unsigned.to_uint_nonnil p). by destruct (Pos.to_uint p).
Qed.

Lemma zfill_value width s : decimal_value (Py.zfill width s) = decimal_value s.
Proof.
  unfold Py.zfill, decimal_value. induction (width - String.length s)%nat as [|k IH];
    [done|]. exact IH.
Qed.

Lemma zfill_digits width s :
  Py.all_chars Py.is_ascii_digit s = true →
  Py.all_chars Py.is_ascii_digit (Py.zfill width s) = true.
Proof.
  intros H. unfold Py.zfill. induction (width - String.length s)%nat as [|k IH];
    [done|]. exact IH.
Qed.

Lemma zfill_not_empty width s : s ≠ EmptyString → Py.zfill width s ≠ EmptyString.
Proof.
  intros H. unfold Py.zfill. by destruct (width - String.length s)%nat.
Qed.

(** The decimal text of a number has no more digits than the number has
    bits. *)
Lemma length_string_of_uint d :
  String.length (NilEmpty.string_of_uint d) = Decimal.nb_digits d.
Proof. induction d; simpl; congruence. Qed.

Lemma nb_digits_double d :
  (Decimal.nb_digits (Decimal.Little.double d) ≤ S (Decimal.nb_digits d))%nat
  ∧ (Decimal.nb_digits (Decimal.Little.succ_double d) ≤ S (Decimal.nb_digits d))%nat.
Proof. induction d as [|d [IH1 IH2]|d [IH1 IH2]|d [IH1 IH2]|d [IH1 IH2]|d [IH1 IH2]
                       |d [IH1 IH2]|d [IH1 IH2]|d [IH1 IH2]|d [IH1 IH2]|d [IH1 IH2]];
         simpl; lia.
Qed.

Lemma nb_digits_to_little_uint p :
  (Decimal.nb_digits (Pos.to_little_uint p) ≤ Pos.size_nat p)%nat.
Proof.
  induction p as [p IH|p IH|]; simpl; [| |lia].
  - pose proof (proj2 (nb_digits_double (Pos.to_little_uint p))). lia.
  - pose proof (proj1 (nb_digits_double (Pos.to_little_uint p))). lia.
Qed.

Lemma size_nat_bound p (n : nat) : Z.pos p < 2 ^ Z.of_nat n → (Pos.size_nat p ≤ n)%nat.
Proof.
  revert n. induction p as [p IH|p IH|]; intros [|n]; simpl; try lia;
    rewrite ?Nat2Z.inj_succ, ?Z.pow_succ_r by lia; intros H;
    apply le_n_S, IH; lia.
Qed.

Lemma decimal_length n :
  Z.of_N n < 2 ^ 63 → (String.length (Py.decimal n) ≤ 63)%nat.
Proof.
  intros Hn. rewrite decimal_unfold, length_string_of_uint.
  destruct n as [|p]; [simpl; lia|]. cbn [N.to_uint]. unfold Pos.to_uint.
  rewrite DecimalFacts.nb_digits_rev.
  pose proof (nb_digits_to_little_uint p).
  pose proof (size_nat_bound p 63 Hn). lia.
Qed.

Lemma zfill_length width s :
  String.length (Py.zfill width s) = (width `max` String.length s)%nat.
Proof.
  unfold Py.zfill.
  assert (∀ k, String.length (Py.zeros k ++ s) = (k + String.length s)%nat) as ->.
  { induction k as [|k IH]; [done|]. simpl. by rewrite IH. }
  lia.
Qed.

(** X9.  For an id that is not negative and fits 64 bits, the four-digit
    text shown for it (on the pages, in the labels and in their barcodes)
    reads back as the id: [int] gives the id, [isdigit] holds of it, so
    typing it into the search finds exactly the roll of that id, and typing
    it into the add form asks for that id. *)
Theorem formatted_id_reads_back k :
  0 ≤ k < 2 ^ 63 →
  Py.int (formatted_id k) = Some k
  ∧ Py.isdigit (formatted_id k) = true
  ∧ (∀ st req, args req !! "q" = Some (formatted_id k) →
       index st req = RenderIndex (filter_by_id k (rolls st)) (formatted_id k))
  ∧ (∀ req n, form req !! "roll_id" = Some (formatted_id k) → custom_id_of req n = k)
  ∧ (∀ i, barcode (Labels.label_at i k) = formatted_id k).
Proof.
  intros Hk. unfold formatted_id, Py.format_04d.
  destruct (Z.ltb_spec k 0) as [?|_]; [lia|].
  set (s := Py.zfill 4 (Py.decimal (Z.abs_N k))).
  assert (s ≠ EmptyString) as Hne by apply zfill_not_empty, decimal_not_empty.
  assert (Py.all_chars Py.is_ascii_digit s = true) as Hd.
  { apply zfill_digits. rewrite decimal_unfold. apply string_of_uint_digits. }
  assert (decimal_value s = k) as Hv.
  { unfold s. rewrite zfill_value, decimal_value_decimal. lia. }
  assert ((String.length s ≤ Py.max_str_digits)%nat) as Hlen.
  { unfold s. rewrite zfill_length.
    pose proof (decimal_length (Z.abs_N k)) as Hdec.
    rewrite N2Z.inj_abs_N, Z.abs_eq in Hdec by lia. specialize (Hdec (proj2 Hk)).
    unfold Py.max_str_digits. lia. }
  destruct (int_of_digits s Hne Hd Hlen) as [Hint Hdig]. rewrite Hv in Hint.
  split_and!; try done.
  - intros st req Hq. unfold index. rewrite Hq. simpl.
    rewrite (proj2 (truthy_true s) Hne), Hdig, Hint.
    by rewrite (proj2 (in_int64_spec k)) by (unfold fits_int64; lia).
  - intros req n Hf. unfold custom_id_of. by rewrite Hf, Hint.
  - intros i. unfold Labels.label_at, Py.format_04d. simpl.
    by destruct (Z.ltb_spec k 0) as [?|_]; [lia|].
Qed.

Lemma formatted_id_reads_back_witness :
  0 ≤ 4 < 2 ^ 63 ∧ Py.int (formatted_id 4) = Some 4.
Proof.
  assert (0 ≤ 4 < 2 ^ 63) as H by (split; [lia | reflexivity]).
  split; [exact H|]. exact (proj1 (formatted_id_reads_back 4 H)).
Defined.

(** ** The start page *)

#[local] Instance id_desc_total : Total id_desc.
Proof. intros a b. unfold id_desc. lia. Qed.

#[local] Instance id_desc_trans : Transitive id_desc.
Proof. intros a b c. unfold id_desc. lia. Qed.

(** X10.  Without a query the start page shows the five rolls of largest
    id, largest first (all of them when the table holds fewer): the result
    holds rows of the table without repetition, sorted by falling id, and
    every row left out has a smaller id than every row shown. *)
Theorem index_recent_rolls st req :
  args req !! "q" = None ∨ args req !! "q" = Some EmptyString →
  ∃ results,
    index st req = RenderIndex results EmptyString
    ∧ length results = (5 `min` size (rolls st))%nat
    ∧ NoDup results
    ∧ StronglySorted id_desc results
    ∧ (∀ k r, (k, r) ∈ results → rolls st !! k = Some r)
    ∧ (∀ k r k' r', (k, r) ∈ results → rolls st !! k' = Some r' →
         (k', r') ∉ results → k' < k).
Proof.
  intros Hq.
  set (l := merge_sort id_desc (map_to_list (rolls st))).
  assert (index st req = RenderIndex (take 5 l) EmptyString) as ->.
  { unfold index. by destruct Hq as [-> | ->]. }
  assert (l ≡ₚ map_to_list (rolls st)) as Hperm by apply merge_sort_Permutation.
  assert (StronglySorted id_desc l) as Hsorted
    by (apply StronglySorted_merge_sort; apply _).
  assert (NoDup l) as Hnodup by (rewrite Hperm; apply NoDup_map_to_list).
  assert (∀ k r, (k, r) ∈ l ↔ rolls st !! k = Some r) as Hin.
  { intros k r. rewrite Hperm. apply elem_of_map_to_list. }
  rewrite <- (take_drop 5 l) in Hsorted, Hnodup.
  apply StronglySorted_app in Hsorted as (Hcross & Htake & _).
  apply NoDup_app in Hnodup as (Hnd & _ & _).
  assert (∀ x, x ∈ take 5 l → x ∈ l) as Hsub.
  { intros x Hx. rewrite <- (take_drop 5 l). apply elem_of_app. by left. }
  eexists. split; [done|]. split_and!; try done.
  - rewrite length_take, Hperm, length_map_to_list. done.
  - intros k r Hr. by apply Hin, Hsub.
  - intros k r k' r' Hr Hr' Hout.
    assert ((k', r') ∈ drop 5 l) as Hdrop.
    { apply Hin in Hr'. rewrite <- (take_drop 5 l) in Hr'.
      by apply elem_of_app in Hr' as [?|?]. }
    specialize (Hcross _ _ Hr Hdrop). unfold id_desc in Hcross. simpl in Hcross.
    assert (k' ≠ k); [|lia]. intros ->.
    apply Hout. replace r' with r; [done|].
    assert (rolls st !! k = Some r) as H1 by (by apply Hin, Hsub).
    congruence.
Qed.

Lemma index_recent_rolls_witness :
  args (mkRequest GET ∅ ∅ ∅) !! "q" = None
  ∧ ∃ results,
      index Sample.one_roll (mkRequest GET ∅ ∅ ∅) = RenderIndex results EmptyString
      ∧ length results = (5 `min` size (rolls Sample.one_roll))%nat.
Proof.
  assert (args (mkRequest GET ∅ ∅ ∅) !! "q" = None) as H by reflexivity.
  split; [exact H|].
  destruct (index_recent_rolls Sample.one_roll (mkRequest GET ∅ ∅ ∅)
              (or_introl H)) as (results & H1 & H2 & _).
  by exists results.
Defined.

(** ** Labels: the sheet *)

(** X11.  Every label is placed in a cell of the grid of 5 columns and 13
    rows, and two labels of one page never share a cell. *)
Theorem labels_fit_the_sheet i n :
  0 ≤ col (Labels.label_at i n) < 5
  ∧ 0 ≤ row (Labels.label_at i n) < 13
  ∧ ∀ j m, i ≠ j → i / 65 = j / 65 →
      col (Labels.label_at i n) ≠ col (Labels.label_at j m)
      ∨ row (Labels.label_at i n) ≠ row (Labels.label_at j m).
Proof.
  unfold Labels.label_at, Labels.COLUMNS, Labels.ROWS. cbn [col row].
  split; [Z.div_mod_to_equations; lia|]. split; [Z.div_mod_to_equations; lia|].
  intros j m Hne Hpage.
  destruct (decide (i mod 5 = j mod 5)) as [Hc|Hc]; [|by left]. right.
  intros Hr. apply Hne. Z.div_mod_to_equations. lia.
Qed.

Lemma labels_fit_the_sheet_witness :
  0 ≠ 64 ∧ 0 / 65 = 64 / 65
  ∧ (col (Labels.label_at 0 1) ≠ col (Labels.label_at 64 65)
     ∨ row (Labels.label_at 0 1) ≠ row (Labels.label_at 64 65)).
Proof.
  split_and!; [done | reflexivity |].
  apply (proj2 (proj2 (labels_fit_the_sheet 0 1)) 64 65); [done | reflexivity].
Defined.


(** ** Network settings *)

Lemma upsert_setting_insert key value t :
  upsert_setting key value t = <[key := Some value]> t.
Proof. unfold upsert_setting. by destruct (t !! key). Qed.

Lemma save_advanced_settings st req :
  settings (save_advanced st req).2
  = <["server_host" := Some (bind_address (form req !! "server_host"))]>
      (<["server_port" := Some (default "5000" (form req !! "server_port"))]>
         (settings st)).
Proof. unfold save_advanced. cbn [snd settings set_settings]. by rewrite !upsert_setting_insert. Qed.

(** X13.  After [save_advanced] the pages show the port of the form (5000
    when the field is missing) and the bind address chosen: 0.0.0.0 for the
    host type [network] and 127.0.0.1 for anything else, a missing field
    included.  No other setting changes, the feature flags among them, and
    saving the same form again changes nothing. *)
Theorem save_advanced_shown run st req :
  current_port (inject_globals run (save_advanced st req).2)
  = Some (default "5000" (form req !! "server_port"))
  ∧ current_host (inject_globals run (save_advanced st req).2)
    = Some (if bool_decide (form req !! "server_host" = Some "network")
            then "0.0.0.0" else "127.0.0.1")
  ∧ (∀ k, k ≠ "server_port" → k ≠ "server_host" →
       settings (save_advanced st req).2 !! k = settings st !! k)
  ∧ globals_gear_enabled (inject_globals run (save_advanced st req).2)
    = globals_gear_enabled (inject_globals run st)
  ∧ save_advanced (save_advanced st req).2 req = save_advanced st req.
Proof.
  split_and!.
  - unfold inject_globals. cbn [current_port]. rewrite save_advanced_settings.
    by rewrite lookup_insert_ne, lookup_insert_eq.
  - unfold inject_globals. cbn [current_host]. rewrite save_advanced_settings.
    by rewrite lookup_insert_eq.
  - intros k Hp Hh. rewrite save_advanced_settings.
    by rewrite !lookup_insert_ne.
  - unfold inject_globals, gear_enabled, setting_is_true. cbn [globals_gear_enabled].
    rewrite save_advanced_settings. by rewrite !lookup_insert_ne.
  - unfold save_advanced. cbn [snd settings set_settings]. f_equal.
    rewrite !upsert_setting_insert. unfold set_settings. cbn. f_equal.
    apply map_eq. intros k. rewrite !lookup_insert. by repeat case_decide.
Qed.

Lemma int_5000 : Py.int "5000" = Some 5000.
Proof. reflexivity. Qed.

(** X14.  After the settings are saved and the process is started again on
    them, the notice of pending changes is gone exactly when the port typed
    is the plain decimal text of an integer.  A port that [int] reads but
    that is written otherwise (zeros or a sign in front, blanks around it,
    underscores) and a port that [int] refuses keep the notice for good. *)
Theorem pending_changes_after_restart st req :
  pending_changes
    (inject_globals (started (settings (save_advanced st req).2)) (save_advanced st req).2)
  = false
  ↔ ∃ p, Py.int (default "5000" (form req !! "server_port")) = Some p
         ∧ Labels.str p = default "5000" (form req !! "server_port").
Proof.
  set (s := default "5000" (form req !! "server_port")).
  set (h := bind_address (form req !! "server_host")).
  unfold inject_globals, started, startup. cbn [pending_changes RUNNING_PORT RUNNING_HOST].
  rewrite save_advanced_settings. fold s h.
  rewrite lookup_insert_eq, lookup_insert_ne, lookup_insert_eq by done.
  destruct (Py.int s) as [p|] eqn:Hint; cbn [fst snd default str_of_value].
  - rewrite orb_false_iff, !bool_decide_eq_false. split.
    + intros [Hs _]. exists p. split; [done|]. symmetry.
      by destruct (decide (s = Labels.str p)).
    + intros (p' & [= <-] & Hp). split; intros H; by apply H.
  - split.
    + intros [Hs _]%orb_false_iff. apply bool_decide_eq_false in Hs.
      assert (s = "5000") as Hs' by (by destruct (decide (s = "5000")); [|destruct Hs]).
      rewrite Hs' in Hint. by rewrite int_5000 in Hint.
    + by intros (p & ? & _).
Qed.

(** ** Gear *)

Section string_order.

Implicit Types a b c : string.

Lemma ascii_compare_refl (x : ascii) : Ascii.compare x x = Eq.
Proof. apply N.compare_refl. Qed.

Lemma ascii_compare_lt_trans (x y z : ascii) :
  Ascii.compare x y = Lt → Ascii.compare y z = Lt → Ascii.compare x z = Lt.
Proof. unfold Ascii.compare. rewrite !N.compare_lt_iff. lia. Qed.

Lemma string_compare_refl a : String.compare a a = Eq.
Proof. induction a as [|x a IH]; simpl; [done|]. by rewrite ascii_compare_refl. Qed.

Lemma string_compare_lt_trans a b c :
  String.compare a b = Lt → String.compare b c = Lt → String.compare a c = Lt.
Proof.
  revert b c. induction a as [|x a IH]; intros [|y b] [|z c]; simpl; try done.
  destruct (Ascii.compare x y) eqn:Hxy; try done;
    destruct (Ascii.compare y z) eqn:Hyz; try done.
  - apply Ascii.compare_eq_iff in Hxy as ->. rewrite Hyz. apply IH.
  - apply Ascii.compare_eq_iff in Hxy as ->. by rewrite Hyz.
  - apply Ascii.compare_eq_iff in Hyz as <-. by rewrite Hxy.
  - by rewrite (ascii_compare_lt_trans x y z).
Qed.

Lemma string_leb_trans a b c :
  String.leb a b = true → String.leb b c = true → String.leb a c = true.
Proof.
  unfold String.leb.
  destruct (String.compare a b) eqn:Hab; try done;
    destruct (String.compare b c) eqn:Hbc; try done; intros _ _.
  - apply String.compare_eq_iff in Hab as ->. by rewrite Hbc.
  - apply String.compare_eq_iff in Hab as ->. by rewrite Hbc.
  - apply String.compare_eq_iff in Hbc as <-. by rewrite Hab.
  - by rewrite (string_compare_lt_trans a b c).
Qed.

End string_order.

#[local] Instance gear_order_total : Total gear_order.
Proof.
  intros a b. unfold gear_order, gear_leb.
  rewrite (String.compare_antisym (hardware_type b.2)).
  destruct (String.compare (hardware_type a.2) (hardware_type b.2)); simpl; auto.
  apply String.leb_total.
Qed.

#[local] Instance gear_order_trans : Transitive gear_order.
Proof.
  intros a b c. unfold gear_order, gear_leb.
  destruct (String.compare (hardware_type a.2) (hardware_type b.2)) eqn:Hab; try done;
    destruct (String.compare (hardware_type b.2) (hardware_type c.2)) eqn:Hbc; try done.
  - apply String.compare_eq_iff in Hab. rewrite Hab, Hbc. apply string_leb_trans.
  - apply String.compare_eq_iff in Hab. by rewrite Hab, Hbc.
  - apply String.compare_eq_iff in Hbc. by rewrite <- Hbc, Hab.
  - by rewrite (string_compare_lt_trans _ _ _ Hab Hbc).
Qed.

(** X15.  The gear page is served exactly when the flag [gear_enabled] of
    the templates is on; otherwise the request is sent back to the start
    page.  The list served holds every gear row once, ordered by hardware
    type and, within one type, by name. *)
Theorem gear_index_gated st (gear : gmap Z Gear) :
  (gear_enabled st = false → gear_index st gear = GearRedirect "index")
  ∧ (gear_enabled st = true →
     ∃ gear_list,
       gear_index st gear = RenderGear gear_list
       ∧ gear_list ≡ₚ map_to_list gear
       ∧ StronglySorted gear_order gear_list).
Proof.
  unfold gear_enabled, setting_is_true, gear_index.
  destruct (settings st !! "enable_gearlog") as [v|]; [|done].
  case_bool_decide as Hv; split; try done.
  - intros _. rewrite bool_decide_eq_false_2 by (by intros []).
    eexists. split; [done|]. split; [apply merge_sort_Permutation|].
    apply StronglySorted_merge_sort; apply _.
  - intros _. by rewrite bool_decide_eq_true_2.
Qed.

Lemma gear_index_gated_witness :
  gear_enabled (toggle_feature Sample.empty_state "enable_gearlog").2 = true
  ∧ ∃ gear_list,
      gear_index (toggle_feature Sample.empty_state "enable_gearlog").2
        {[ 1 := mkGear "AE-1" "Camera" None 0 ]} = RenderGear gear_list.
Proof.
  assert (gear_enabled (toggle_feature Sample.empty_state "enable_gearlog").2 = true)
    as H by reflexivity.
  split; [exact H|].
  destruct (proj2 (gear_index_gated _ {[ 1 := mkGear "AE-1" "Camera" None 0 ]}) H)
    as (l & Hl & _).
  by exists l.
Defined.



(** ** Backup import: what the loop writes *)


Lemma import_member_images pf z st member st' f :
  import_member pf z st member = Ok st' →
  images st' !! f
  = if decide (image_target pf member = Some f) then zip_read z member
    else images st !! f.
Proof.
  unfold import_member, image_target. destruct (blocked member).
  { intros [= <-]. by rewrite decide_False. }
  destruct (target_path pf member) as [[n|n]|].
  - destruct (zip_read z member); [|done]. intros [= <-]. by rewrite decide_False.
  - destruct (zip_read z member) as [data|]; [|done]. simpl.
    destruct (creatable n); [|done]. intros [= <-]. simpl.
    rewrite lookup_insert. case_decide as Hn; subst.
    + by rewrite decide_True.
    + rewrite decide_False; [done|]. congruence.
  - intros [= <-]. by rewrite decide_False.
Qed.

Lemma import_member_data_files pf z st member st' f :
  import_member pf z st member = Ok st' →
  data_files st' !! f
  = if decide (data_target pf member = Some f) then zip_read z member
    else data_files st !! f.
Proof.
  unfold import_member, data_target. destruct (blocked member).
  { intros [= <-]. by rewrite decide_False. }
  destruct (target_path pf member) as [[n|n]|].
  - destruct (zip_read z member) as [data|]; [|done]. intros [= <-]. simpl.
    rewrite lookup_insert. case_decide as Hn; subst.
    + by rewrite decide_True.
    + rewrite decide_False; [done|]. congruence.
  - destruct (zip_read z member); [|done]. cbn [write_target].
    destruct (creatable n); [|done]. intros [= <-]. by rewrite decide_False.
  - intros [= <-]. by rewrite decide_False.
Qed.

(** The loop, seen through one directory: [view] is the directory and
    [target] the name an entry is written under, if it is written there. *)
Section one_directory.

Context (pf : Platform) (z : list (string * string)).
Context (target : string → option string) (view : State → gmap string string).
Hypothesis member_view : ∀ st member st' f,
  import_member pf z st member = Ok st' →
  view st' !! f
  = if decide (target member = Some f) then zip_read z member else view st !! f.

Lemma members_unwritten names st f :
  (∀ m, m ∈ names → target m ≠ Some f) →
  view (import_members pf z names st).1 !! f = view st !! f.
Proof.
  revert st. induction names as [|m names IH]; intros st Hno; [done|]. simpl.
  destruct (import_member pf z st m) as [st1|e] eqn:E; [|done].
  rewrite IH by (intros m' Hm'; apply Hno; by right).
  rewrite (member_view _ _ _ f E). rewrite decide_False; [done|]. apply Hno. by left.
Qed.


Lemma members_changed names st f :
  view (import_members pf z names st).1 !! f ≠ view st !! f →
  ∃ m, m ∈ names ∧ target m = Some f.
Proof.
  intros Hne. destruct (decide (Exists (λ m, target m = Some f) names)) as [H|H].
  - apply Exists_exists in H as (m & ? & ?). eauto.
  - exfalso. apply Hne, members_unwritten. intros m Hm Ht.
    apply H, Exists_exists. eauto.
Qed.

Lemma members_keep names st f :
  names ⊆ z.*1 →
  is_Some (view st !! f) → is_Some (view (import_members pf z names st).1 !! f).
Proof.
  revert st. induction names as [|m names IH]; intros st Hsub Hf; [done|]. simpl.
  destruct (import_member pf z st m) as [st1|e] eqn:E; [|done].
  apply IH; [intros x Hx; apply Hsub; by right|].
  rewrite (member_view _ _ _ f E).
  case_decide; [|done]. apply zip_read_member, Hsub. by left.
Qed.

End one_directory.


(** What is written to the image directory has a file name. *)
Lemma image_target_file_name pf member f :
  image_target pf member = Some f → file_name pf f.
Proof.
  unfold image_target, target_path. destruct (blocked member); [done|].
  case_bool_decide; [done|].
  destruct (Py.startswith "Images/" member) eqn:Hp; [|done].
  destruct (Py.truthy (basename pf member)) eqn:Ht; [|done].
  destruct (creatable (basename pf member)) eqn:Hc; [|done]. intros [= <-].
  apply startswith_spec in Hp as [rest ->]. split; [by apply truthy_true|].
  split; [done|].
  by destruct (basename_spec pf rest) as (dir & c & _ & _ & Hno).
Qed.

Lemma data_target_database pf member f :
  data_target pf member = Some f → f ∈ database_names.
Proof.
  unfold data_target, target_path. destruct (blocked member); [done|].
  case_bool_decide as Hdb; [by intros [= <-]|].
  destruct (Py.startswith "Images/" member); [|done].
  by destruct (Py.truthy (basename pf member)).
Qed.

(** X17.  Whatever archive is uploaded on a POSIX file system, the import
    stays inside its two directories: in the data directory it writes
    nothing but [filmlog.db] and [gearlog.db]; every file it writes to the
    image directory has a plain file name, not empty, not [.] or [..], and
    with no separator in it; and no file is removed. *)
Theorem import_backup_confined env st req :
  platform env = Posix →
  (∀ n, n ∉ database_names →
     data_files (import_backup env st req).2 !! n = data_files st !! n)
  ∧ (∀ f, images (import_backup env st req).2 !! f ≠ images st !! f →
       f ≠ EmptyString ∧ f ≠ "." ∧ f ≠ ".."
       ∧ ∀ a b, f ≠ (a ++ String "/" b)%string)
  ∧ (∀ f, is_Some (images st !! f) → is_Some (images (import_backup env st req).2 !! f))
  ∧ (∀ n, is_Some (data_files st !! n) →
       is_Some (data_files (import_backup env st req).2 !! n)).
Proof.
  intros Hpf.
  unfold import_backup. destruct (files req !! "backup_file") as [file|]; [|done].
  destruct (negb (Py.truthy (filename file)) || negb (Py.endswith ".zip" (filename file)));
    [done|].
  destruct (zip_entries env (stream file)) as [z|]; [|done].
  rewrite Hpf. set (pf := Posix).
  assert ((import_members pf z z.*1 st,
           match import_members pf z z.*1 st with
           | (st', None) => (RedirectRestart, st')
           | (st', Some e) => (ImportFailed e, st')
           end.2) = (import_members pf z z.*1 st, (import_members pf z z.*1 st).1)) as Hst
    by (by destruct (import_members pf z z.*1 st) as [st' [e|]]).
  injection Hst as ->.
  split_and!.
  - intros n Hn. apply (members_unwritten pf z (data_target pf) data_files).
    + intros. by apply import_member_data_files.
    + intros m _ Hm. by apply data_target_database in Hm.
  - intros f Hf.
    apply (members_changed pf z (image_target pf) images) in Hf as (m & _ & Hm).
    + apply image_target_file_name in Hm as (Hne & Hc & Hsep).
      split_and!; [done | by intros -> | by intros -> |].
      intros a b ->. by apply (Hsep a "/"%char b).
    + intros. by apply import_member_images.
  - intros f. apply (members_keep pf z (image_target pf) images); [|done].
    intros. by apply import_member_images.
  - intros n. apply (members_keep pf z (data_target pf) data_files); [|done].
    intros. by apply import_member_data_files.
Qed.

Lemma import_backup_confined_witness :
  platform Fixture.env = Posix
  ∧ ∀ n, n ∉ database_names →
      data_files (import_backup Fixture.env Sample.empty_state Fixture.restore).2 !! n
      = data_files Sample.empty_state !! n.
Proof.
  split; [reflexivity|].
  exact (proj1 (import_backup_confined Fixture.env Sample.empty_state Fixture.restore
                  eq_refl)).
Defined.

(** ** Backup export *)

Lemma images_prefix_inj f g : ("Images/" ++ f)%string = ("Images/" ++ g)%string → f = g.
Proof. intros H. by injection H. Qed.

Lemma archive_file_elem name dir m d :
  (m, d) ∈ archive_file name dir ↔ m = name ∧ dir !! name = Some d.
Proof.
  unfold archive_file. destruct (dir !! name) as [data|].
  - rewrite list_elem_of_singleton. split; [by intros [= -> ->] | by intros [-> [= ->]]].
  - split; [by intros ?%elem_of_nil | by intros [_ ?]].
Qed.

Lemma backup_archive_elem include_images st m d :
  (m, d) ∈ backup_archive include_images st ↔
  (m ∈ database_names ∧ data_files st !! m = Some d)
  ∨ (include_images = true ∧ ∃ f, m = ("Images/" ++ f)%string ∧ images st !! f = Some d).
Proof.
  unfold backup_archive, database_names.
  rewrite !elem_of_app, !archive_file_elem. split.
  - intros [[-> H] | [[-> H] | H]].
    + left. split; [apply list_elem_of_here | done].
    + left. split; [apply list_elem_of_further, list_elem_of_here | done].
    + right. destruct include_images; [|by apply elem_of_nil in H]. split; [done|].
      apply list_elem_of_fmap in H as ([f d'] & [= -> ->] & H).
      exists f. split; [done|]. by apply elem_of_map_to_list.
  - intros [[Hm H] | [-> (f & -> & H)]].
    + apply elem_of_cons in Hm as [-> | Hm]; [by left|].
      apply elem_of_cons in Hm as [-> | Hm%elem_of_nil]; [|done]. right. by left.
    + right. right. apply list_elem_of_fmap. exists (f, d). split; [done|].
      by apply elem_of_map_to_list.
Qed.

Lemma zip_read_Some (z : list (string * string)) m d :
  zip_read z m = Some d → (m, d) ∈ z.
Proof.
  induction z as [|[name data] z IH]; simpl; [done|].
  destruct (zip_read z m) as [later|].
  - intros [= ->]. right. by apply IH.
  - case_decide as Hn; [|done]. intros [= ->]. subst. by left.
Qed.

Lemma zip_read_unique (z : list (string * string)) m d :
  (m, d) ∈ z → (∀ d', (m, d') ∈ z → d' = d) → zip_read z m = Some d.
Proof.
  intros Hin Huniq.
  destruct (zip_read_member z m) as [d' Hd'].
  { apply list_elem_of_fmap. by exists (m, d). }
  rewrite Hd'. f_equal. by apply Huniq, zip_read_Some.
Qed.

Lemma backup_archive_read include_images st m d :
  (m, d) ∈ backup_archive include_images st →
  zip_read (backup_archive include_images st) m = Some d.
Proof.
  intros Hin. apply zip_read_unique; [done|]. intros d' Hd'.
  apply backup_archive_elem in Hin, Hd'.
  destruct Hin as [[Hdb H] | [_ (f & -> & H)]], Hd' as [[Hdb' H'] | [_ (f' & Hf' & H')]].
  - congruence.
  - subst. exfalso. unfold database_names in Hdb.
    apply elem_of_cons in Hdb as [Hdb | Hdb]; [done|].
    by apply elem_of_cons in Hdb as [Hdb | Hdb%elem_of_nil].
  - exfalso. unfold database_names in Hdb'.
    apply elem_of_cons in Hdb' as [Hdb' | Hdb']; [done|].
    by apply elem_of_cons in Hdb' as [Hdb' | Hdb'%elem_of_nil].
  - apply images_prefix_inj in Hf' as <-. congruence.
Qed.

(** X18.  The archive [backup] builds holds the data files [filmlog.db] and
    [gearlog.db] that exist and, when [images=true] is asked for, every
    file of the image directory under [Images/] and its own name; it holds
    nothing else, and reading a name gives the content of its file.  The download is named [FilmLog_Full_Backup] or
    [FilmLog_Data_Backup] with the date. *)
Theorem backup_entries today st req :
  (∀ m d, (m, d) ∈ (backup today st req).2 ↔
     (m ∈ database_names ∧ data_files st !! m = Some d)
     ∨ (args req !! "images" = Some "true"
        ∧ ∃ f, m = ("Images/" ++ f)%string ∧ images st !! f = Some d))
  ∧ (∀ m d, zip_read (backup today st req).2 m = Some d ↔ (m, d) ∈ (backup today st req).2)
  ∧ (backup today st req).1
    = (if bool_decide (args req !! "images" = Some "true")
       then "FilmLog_Full_Backup_" ++ today ++ ".zip"
       else "FilmLog_Data_Backup_" ++ today ++ ".zip")%string.
Proof.
  unfold backup. cbn [fst snd]. split_and!; [| |done].
  - intros m d. rewrite backup_archive_elem.
    by rewrite bool_decide_eq_true.
  - intros m d. split; [|apply backup_archive_read].
    apply zip_read_Some.
Qed.

(** ** Backup: export, then import *)












(** ** Uploads: the extension test and the image *)

(** X20.  [allowed_file] holds exactly of the names whose text after the
    last dot is [jpg], [jpeg] or [png] in any mix of cases, and fails
    exactly of the names with no dot or with another text after the last
    dot: only the last extension counts. *)
Theorem allowed_file_by_last_extension name :
  (allowed_file name = true ↔ has_allowed_extension name)
  ∧ (allowed_file name = false ↔ has_no_allowed_extension name).
Proof.
  split; [apply allowed_file_spec|]. split; [|apply disallowed_file].
  unfold allowed_file, has_no_allowed_extension.
  destruct (Py.after_last is_dot name) as [ext|] eqn:E.
  - apply after_last_Some in E as (pre & c & -> & ->%is_dot_eq & Hext).
    intros H. right. exists pre, ext. split; [done|]. split; [done|].
    apply andb_false_iff in H as [H | H].
    + assert (Py.contains "." (pre ++ String "." ext) = true) as Hc; [|congruence].
      apply contains_spec. by exists pre, ext.
    + by apply bool_decide_eq_false in H.
  - intros _. left. by apply after_last_None.
Qed.

(** X21.  In a create request with a free id that fits 64 bits and the
    three required fields, an upload with a name and an allowed extension
    is handed to Pillow under the sanitised name made of the time stamp, an
    underscore and the name given.  When Pillow writes the image, the file
    is in the image folder under that name; the roll is stored with that
    name as its contact sheet when [iso] is empty or fits 64 bits, and
    otherwise the form comes back with the database error, no roll is
    stored and the file stays.  When Pillow raises, the request ends in
    that error and no roll is stored. *)
Theorem add_roll_with_upload env st req file film cam notes_v v :
  method req = POST →
  rolls st !! custom_id_of req (next_id (rolls st)) = None →
  fits_int64 (custom_id_of req (next_id (rolls st))) →
  form req !! "film_type" = Some film →
  form req !! "camera" = Some cam →
  form req !! "notes" = Some notes_v →
  says_int (form req !! "iso") v →
  files req !! "contact_sheet" = Some file →
  filename file ≠ EmptyString →
  has_allowed_extension (filename file) →
  match
    optimized_image env (secure_filename env (now_timestamp env ++ "_" ++ filename file))
      (stream file)
  with
  | Ok data =>
      images (add_roll env st req).2
      = <[secure_filename env (now_timestamp env ++ "_" ++ filename file) := data]>
          (images st)
      ∧ ((∀ k, v = Some k → fits_int64 k) →
         ∃ r,
           (add_roll env st req).1 = Redirect "index"
           ∧ rolls (add_roll env st req).2
             = <[custom_id_of req (next_id (rolls st)) := r]> (rolls st)
           ∧ contact_sheet r
             = Some (secure_filename env (now_timestamp env ++ "_" ++ filename file))
           ∧ date_added r = utcnow env
           ∧ film_type r = film
           ∧ iso r = v)
      ∧ ((∃ k, v = Some k ∧ ¬ fits_int64 k) →
         (add_roll env st req).1
         = RenderAddRoll (Some DatabaseError) (custom_id_of req (next_id (rolls st)))
         ∧ rolls (add_roll env st req).2 = rolls st)
  | Raise e =>
      (add_roll env st req).1 = respond_exn e
      ∧ rolls (add_roll env st req).2 = rolls st
  end.
Proof.
  intros Hm Hfree Hid%in_int64_spec Hfilm Hcam Hnotes Hiso%optional_int_says
    Hfile Hname Hext.
  unfold add_roll. rewrite Hm, Hfree, Hid.
  unfold add_roll_fields, required. rewrite Hfilm, Hcam, Hnotes, Hfile, Hiso. simpl.
  rewrite store_upload_cases.
  rewrite (proj2 (truthy_true _) Hname), (proj2 (allowed_file_spec _) Hext). simpl.
  destruct (optimized_image env _ (stream file)) as [data|e]; simpl; [|done].
  unfold db_insert. cbn [rolls set_images iso]. rewrite Hfree, Hid. split_and!.
  - by destruct (true && bindable v).
  - intros Hfit%bindable_spec. rewrite Hfit. by eexists.
  - intros (k & -> & Hbad). simpl.
    destruct (in_int64 k) eqn:Hk; [|done]. by apply in_int64_spec in Hk.
Qed.

Lemma add_roll_with_upload_witness :
  method (Sample.post_roll [] (mkFile "sheet.JPG" "bytes")) = POST
  ∧ rolls Sample.one_roll
      !! custom_id_of (Sample.post_roll [] (mkFile "sheet.JPG" "bytes"))
           (next_id (rolls Sample.one_roll)) = None
  ∧ fits_int64
      (custom_id_of (Sample.post_roll [] (mkFile "sheet.JPG" "bytes"))
         (next_id (rolls Sample.one_roll)))
  ∧ says_int (form (Sample.post_roll [] (mkFile "sheet.JPG" "bytes")) !! "iso") (Some 400)
  ∧ has_allowed_extension "sheet.JPG"
  ∧ ∃ r,
      (add_roll Sample.env Sample.one_roll
         (Sample.post_roll [] (mkFile "sheet.JPG" "bytes"))).1 = Redirect "index"
      ∧ rolls
          (add_roll Sample.env Sample.one_roll
             (Sample.post_roll [] (mkFile "sheet.JPG" "bytes"))).2
        = <[custom_id_of (Sample.post_roll [] (mkFile "sheet.JPG" "bytes"))
              (next_id (rolls Sample.one_roll)) := r]> (rolls Sample.one_roll)
      ∧ contact_sheet r = Some "1700000000.25_sheet.JPG".
Proof.
  assert (has_allowed_extension "sheet.JPG") as Hext.
  { exists "sheet", "JPG". split; [reflexivity|]. split; [reflexivity|].
    apply list_elem_of_here. }
  assert (says_int (form (Sample.post_roll [] (mkFile "sheet.JPG" "bytes")) !! "iso")
            (Some 400)) as Hiso.
  { exists "400". split_and!; [by vm_compute | done | reflexivity]. }
  assert (rolls Sample.one_roll
            !! custom_id_of (Sample.post_roll [] (mkFile "sheet.JPG" "bytes"))
                 (next_id (rolls Sample.one_roll)) = None) as Hfree by (by vm_compute).
  assert (fits_int64
            (custom_id_of (Sample.post_roll [] (mkFile "sheet.JPG" "bytes"))
               (next_id (rolls Sample.one_roll)))) as Hid by (by apply in_int64_spec).
  split_and!; [reflexivity | exact Hfree | exact Hid | exact Hiso | exact Hext |].
  destruct (proj1 (proj2 (add_roll_with_upload Sample.env Sample.one_roll
                     (Sample.post_roll [] (mkFile "sheet.JPG" "bytes"))
                     (mkFile "sheet.JPG" "bytes") "Portra 400" "AE-1" "" (Some 400)
                     eq_refl Hfree Hid ltac:(by vm_compute) ltac:(by vm_compute)
                     ltac:(by vm_compute) Hiso ltac:(by vm_compute) ltac:(done) Hext)))
    as (r & Hresp & Hr & Hsheet & _).
  { intros k [= <-]. unfold fits_int64. lia. }
  exists r. split_and!; [exact Hresp | exact Hr | exact Hsheet].
Defined.

(** ** Starting the process *)

(** X22.  The port and the host the process starts with, after
    [save_advanced]: when [int] reads the port typed, they are that number
    and the bind address chosen; when it does not, they are 5000 and
    0.0.0.0, whatever host was chosen, the local one included. *)
Theorem startup_after_save st req :
  startup (settings (save_advanced st req).2)
  = match Py.int (default "5000" (form req !! "server_port")) with
    | Some p =>
        (p, Some (if bool_decide (form req !! "server_host" = Some "network")
                  then "0.0.0.0" else "127.0.0.1"))
    | None => (5000, Some "0.0.0.0")
    end.
Proof.
  unfold startup. rewrite save_advanced_settings.
  rewrite lookup_insert_eq, lookup_insert_ne, lookup_insert_eq by done.
  by destruct (Py.int _).
Qed.
